(** * The spreadsheet engine of [excel_like_program.py]

    A shallow embedding of class [Spreadsheet] and of the part of the
    pandas API its methods call.

    A [DataFrame] is kept row by row: the ordered column labels and, for
    every row, the cells in column order.  The row index is the default
    positional one (0, 1, 2, ...), which is what every frame has that the
    program builds by its own edits or loads from a file whose records
    are no longer than its header.  A frame whose row labels were taken
    from the file has no counterpart here; what depends on the row
    labels -- [df.loc[len(df)] = values] appending a row -- is stated for
    the sheets [built] from a new store by [add_row] and [add_column].
    Two frame invariants of pandas are stated as [wf]: the data is
    rectangular and, as in every frame the program builds, the labels
    are pairwise distinct.

    Cells are text, integers or the missing marker; floating-point and
    boolean cells are not part of the cell model.  [to_numeric] tells the
    columns pandas holds as int64, whose sum wraps around, from those it
    holds as float64; the arithmetic of the latter is done on exact
    rationals, and what is proved of a total is proved for columns on
    which the two agree: integers whose absolute values add up to at
    most 2^53, next to text that is plainly no number. *)

From Stdlib Require Import String Ascii List Bool Arith ZArith QArith Lia.
From Stdlib Require Import DecimalString DecimalZ Finite.
Import ListNotations.

Local Open Scope string_scope.
Local Open Scope list_scope.

(** ** Exceptions and results *)

Inductive Exn :=
| FileNotFoundError
| EmptyDataError
| ParserError
| OSError
| ValueError.

Inductive result (A : Type) :=
| Ok (a : A)
| Raise (e : Exn).
Arguments Ok {A} a.
Arguments Raise {A} e.

(** A number as pandas computes with it: a value or the not-a-number
    marker that stands for a cell that could not be coerced. *)
Inductive Number :=
| Finite (q : Q)
| nan.

(** ** Frames *)

(** A column label: [RangeIndex] labels are Python ints, every other label
    the program creates is a [str]. *)
Inductive Label :=
| LInt (i : Z)
| LStr (s : string).

Inductive Cell :=
| CStr (s : string)
| CInt (z : Z)
| CNaN.

Record DataFrame := mkDF {
  columns : list Label;
  data : list (list Cell)
}.

Definition label_eqb (a b : Label) : bool :=
  match a, b with
  | LInt i, LInt j => Z.eqb i j
  | LStr s, LStr t => String.eqb s t
  | _, _ => false
  end.

(** [rectangular]: every row has one cell per column. *)
Definition rectangular (df : DataFrame) : Prop :=
  Forall (fun r => length r = length (columns df)) (data df).

Definition wf (df : DataFrame) : Prop :=
  NoDup (columns df) /\ rectangular df.

Module Pandas.

(** [pd.DataFrame()] *)
Definition DataFrame_new : DataFrame := mkDF [] [].

(** [len(df)] and [len(df.columns)] *)
Definition len (df : DataFrame) : nat := length (data df).
Definition ncols (df : DataFrame) : nat := length (columns df).

(** [df.empty]: true when either axis has length zero. *)
Definition empty (df : DataFrame) : bool :=
  (ncols df =? 0)%nat || (len df =? 0)%nat.

(** [RangeIndex(n)] as labels. *)
Definition RangeIndex (n : nat) : list Label :=
  map (fun i => LInt (Z.of_nat i)) (seq 0 n).

(** [pd.DataFrame([values])]: one row, columns labelled by position. *)
Definition DataFrame_of_row (values : list string) : DataFrame :=
  mkDF (RangeIndex (length values)) [map CStr values].

(** [df.loc[len(df)] = values]: setting with enlargement on the default
    index appends a row; a list of the wrong length raises before anything
    is written.  The result is the frame after the statement and the
    exception raised, if any.  (On rows labelled otherwise the label
    [len(df)] can be that of an existing row, which the statement then
    writes over; this reading is that of the default index only.) *)
Definition loc_setitem_new (values : list string) (df : DataFrame)
  : DataFrame * option Exn :=
  if (length values =? ncols df)%nat
  then (mkDF (columns df) (data df ++ [map CStr values]), None)
  else (df, Some ValueError).

(** [name in df.columns] *)
Definition contains (name : Label) (df : DataFrame) : bool :=
  existsb (label_eqb name) (columns df).

(** [DataFrame._ensure_valid_index]: a frame without rows takes its index
    from a non-empty value; the columns it already has are filled with
    missing cells.  This step mutates the frame in place. *)
Definition ensure_valid_index (n : nat) (df : DataFrame) : DataFrame :=
  if (len df =? 0)%nat && (0 <? n)%nat
  then mkDF (columns df) (repeat (repeat CNaN (ncols df)) n)
  else df.

(** Writing one column: an existing label is overwritten where it stands,
    a new one is appended as the last column. *)
Definition overwrite (cols : list Label) (name : Label) (v : Cell)
  (r : list Cell) : list Cell :=
  map (fun lc => if label_eqb (fst lc) name then v else snd lc)
      (combine cols r).

Definition set_column (name : Label) (vals : list Cell) (df : DataFrame)
  : DataFrame :=
  if contains name df
  then mkDF (columns df)
            (map (fun rv => overwrite (columns df) name (snd rv) (fst rv))
                 (combine (data df) vals))
  else mkDF (columns df ++ [name])
            (map (fun rv => fst rv ++ [snd rv]) (combine (data df) vals)).

(** [df[name] = values] for a list: [_ensure_valid_index], then
    [require_length_match] against the index, then the column is written. *)
Definition setitem (name : string) (values : list string) (df : DataFrame)
  : DataFrame * option Exn :=
  let df1 := ensure_valid_index (length values) df in
  if (length values =? len df1)%nat
  then (set_column (LStr name) (map CStr values) df1, None)
  else (df1, Some ValueError).

(** *** Reading columns *)

Fixpoint index_of (name : Label) (cols : list Label) : option nat :=
  match cols with
  | [] => None
  | l :: rest =>
      if label_eqb l name then Some 0%nat
      else option_map S (index_of name rest)
  end.

(** [df[col]] as the list of the column's cells, top to bottom. *)
Definition getitem (col : Label) (df : DataFrame) : list Cell :=
  match index_of col (columns df) with
  | Some j => map (fun r => nth j r CNaN) (data df)
  | None => []
  end.

(** Decimal text of an integer, as [str] prints a Python int. *)
Definition str_of_Z (z : Z) : string := NilZero.string_of_int (Z.to_int z).

(** [Series.astype(str)] on one cell.  A missing cell is printed "nan"
    by pandas 2 and kept missing by pandas 3: what is proved of
    [filter_rows] is proved for a value other than "nan", or a column
    without missing cells, where the two agree. *)
Definition astype_str (c : Cell) : string :=
  match c with
  | CStr s => s
  | CInt z => str_of_Z z
  | CNaN => "nan"
  end.

(** [df[mask]]: the rows whose mask entry is true. *)
Definition boolean_index (mask : list bool) (df : DataFrame) : DataFrame :=
  mkDF (columns df)
       (map snd (filter (fun br => fst br) (combine mask (data df)))).

(** [df.head(n)]: the first [n] rows, or all but the last [-n] when [n] is
    negative. *)
Definition head (n : Z) (df : DataFrame) : DataFrame :=
  mkDF (columns df)
       (if (0 <=? n)%Z then firstn (Z.to_nat n) (data df)
        else firstn (len df - Z.to_nat (- n)) (data df)).

(** *** Coercion to numbers

    The text accepted as a number here is the signed decimal notation:
    an optional sign, digits, and an optional fractional part.  (pandas
    also reads exponents, surrounding blanks and the words for infinity;
    text of those forms is outside this model, and no property below is
    stated for it.) *)

Definition is_digit (c : ascii) : bool :=
  let n := nat_of_ascii c in (48 <=? n)%nat && (n <=? 57)%nat.

Definition digit_val (c : ascii) : Z := Z.of_nat (nat_of_ascii c - 48).

Fixpoint all_digits (s : string) : bool :=
  match s with
  | EmptyString => true
  | String c r => is_digit c && all_digits r
  end.

Fixpoint digits_val (acc : Z) (s : string) : Z :=
  match s with
  | EmptyString => acc
  | String c r => digits_val (10 * acc + digit_val c) r
  end.

Fixpoint split_dot (s : string) : string * option string :=
  match s with
  | EmptyString => (EmptyString, None)
  | String c r =>
      if Ascii.eqb c "." then (EmptyString, Some r)
      else let (a, b) := split_dot r in (String c a, b)
  end.

Definition nonempty (s : string) : bool :=
  match s with EmptyString => false | _ => true end.

Definition unsigned_number (s : string) : option Q :=
  match split_dot s with
  | (ip, None) =>
      if nonempty ip && all_digits ip then Some (digits_val 0 ip # 1)
      else None
  | (ip, Some fp) =>
      if all_digits ip && all_digits fp && (nonempty ip || nonempty fp)
      then Some (digits_val 0 (ip ++ fp)
                 # Z.to_pos (10 ^ Z.of_nat (String.length fp)))
      else None
  end.

Definition parse_number (s : string) : option Q :=
  match s with
  | String "-" r => option_map Qopp (unsigned_number r)
  | String "+" r => unsigned_number r
  | _ => unsigned_number s
  end.

(** Text read as an integer: an optional minus sign and decimal digits. *)
Definition parse_int (s : string) : option Z :=
  option_map Z.of_int (NilZero.int_of_string s).

(** The integer a cell is read as, if it is read as an integer. *)
Definition integer_of_cell (c : Cell) : option Z :=
  match c with
  | CStr s => parse_int s
  | CInt z => Some z
  | CNaN => None
  end.

(** [pd.to_numeric(..., errors='coerce')] on one cell: what cannot be read
    as a number becomes [nan]. *)
Definition to_numeric_cell (c : Cell) : Number :=
  match integer_of_cell c with
  | Some z => Finite (inject_Z z)
  | None =>
      match c with
      | CStr s =>
          match parse_number s with Some q => Finite q | None => nan end
      | _ => nan
      end
  end.

Definition int64_min : Z := - 2 ^ 63.
Definition int64_max : Z := 2 ^ 63 - 1.

Definition in_int64_range (z : Z) : bool :=
  (int64_min <=? z)%Z && (z <=? int64_max)%Z.

(** The column after coercion: int64 when every cell is an integer that
    fits, float64 (with [nan] for what is no number) otherwise.  (The
    uint64 columns pandas makes of larger integers are not modelled.) *)
Inductive Series :=
| Int64 (zs : list Z)
| Float64 (xs : list Number).

Fixpoint all_int64 (cells : list Cell) : option (list Z) :=
  match cells with
  | [] => Some []
  | c :: rest =>
      match integer_of_cell c, all_int64 rest with
      | Some z, Some zs => if in_int64_range z then Some (z :: zs) else None
      | _, _ => None
      end
  end.

(** [pd.to_numeric(series, errors='coerce')].  On a single column the
    conversion does not raise. *)
Definition to_numeric (cells : list Cell) : result Series :=
  match all_int64 cells with
  | Some zs => Ok (Int64 zs)
  | None => Ok (Float64 (map to_numeric_cell cells))
  end.

(** The numbers of a column, as they are handed to a chart. *)
Definition values (s : Series) : list Number :=
  match s with
  | Int64 zs => map (fun z => Finite (inject_Z z)) zs
  | Float64 xs => xs
  end.

(** int64 addition wraps around. *)
Definition wrap64 (z : Z) : Z := (z - int64_min) mod 2 ^ 64 + int64_min.

Fixpoint total (xs : list Number) : Q :=
  match xs with
  | [] => 0
  | Finite q :: rest => q + total rest
  | nan :: rest => total rest
  end.

Fixpoint count (xs : list Number) : nat :=
  match xs with
  | [] => 0%nat
  | Finite _ :: rest => S (count rest)
  | nan :: rest => count rest
  end.

(** [Series.sum()]: on int64 the total modulo 2^64; on float64 the [nan]
    entries are skipped and the empty sum is zero (the rounding of
    float64 addition is not modelled). *)
Definition sum (s : Series) : Q :=
  match s with
  | Int64 zs => inject_Z (wrap64 (fold_right Z.add 0%Z zs))
  | Float64 xs => total xs
  end.

(** [Series.mean()]: the mean of the entries that are not [nan], and [nan]
    when there is none (the rounding of the division is not modelled). *)
Definition mean (s : Series) : Number :=
  match s with
  | Int64 [] => nan
  | Int64 zs =>
      Finite (inject_Z (fold_right Z.add 0%Z zs)
              / inject_Z (Z.of_nat (length zs)))
  | Float64 xs =>
      match count xs with
      | O => nan
      | S _ => Finite (total xs / inject_Z (Z.of_nat (count xs)))
      end
  end.

(** *** Delimited text

    The content of a file is kept as its records, each a list of fields:
    the quoting and escaping of the [csv] module, which reads back what it
    writes, is not modelled.  A record without fields is a blank line. *)

Definition csv := list (list string).

Inductive File :=
| Absent
| Unreadable
| Content (g : csv).

Record FileSystem := mkFS {
  file : string -> File;
  writable : string -> bool
}.

Definition write (path : string) (g : csv) (fs : FileSystem) : FileSystem :=
  mkFS (fun p => if String.eqb p path then Content g else file fs p)
       (writable fs).

Definition label_str (l : Label) : string :=
  match l with
  | LInt i => str_of_Z i
  | LStr s => s
  end.

(** A cell as [to_csv] writes it: missing cells are written empty. *)
Definition cell_csv (c : Cell) : string :=
  match c with
  | CStr s => s
  | CInt z => str_of_Z z
  | CNaN => EmptyString
  end.

Definition encode (df : DataFrame) : csv :=
  map label_str (columns df) :: map (map cell_csv) (data df).

(** [df.to_csv(path, index=False)] *)
Definition to_csv (path : string) (df : DataFrame) (fs : FileSystem)
  : FileSystem * option Exn :=
  if writable fs path then (write path (encode df) fs, None)
  else (fs, Some OSError).

(** The default missing-value markers of [read_csv]. *)
Definition NA_VALUES : list string :=
  [ ""; "#N/A"; "#N/A N/A"; "#NA"; "-1.#IND"; "-1.#QNAN"; "-NaN"; "-nan";
    "1.#IND"; "1.#QNAN"; "<NA>"; "N/A"; "NA"; "NULL"; "NaN"; "None"; "n/a";
    "nan"; "null" ].

Definition is_na (s : string) : bool := existsb (String.eqb s) NA_VALUES.

(** A field read as an int64: an optional minus sign and decimal digits,
    in range.  (pandas also reads a leading plus sign and surrounding
    blanks; what is proved of a load is proved for files without such
    fields.) *)
Definition parse_int64 (s : string) : option Z :=
  match NilZero.int_of_string s with
  | Some d =>
      let z := Z.of_int d in
      if (int64_min <=? z)%Z && (z <=? int64_max)%Z then Some z else None
  | None => None
  end.

Definition is_int64 (s : string) : bool :=
  match parse_int64 s with Some _ => true | None => false end.

(** Type inference works column by column.  A column whose every field is
    an integer is read as integers; any other column keeps its text, with
    the missing-value markers read as missing.  (The float64 and bool
    columns pandas would also infer are outside the cell model and are
    kept as text here.) *)
Inductive ColumnKind := KInt | KObject.

Definition column_kind (fields : list string) : ColumnKind :=
  if forallb is_int64 fields then KInt else KObject.

Definition convert (k : ColumnKind) (field : string) : Cell :=
  match k with
  | KInt => match parse_int64 field with Some z => CInt z | None => CNaN end
  | KObject => if is_na field then CNaN else CStr field
  end.

(** Header names: an empty name becomes [Unnamed: i], and repeated names
    are told apart by [_dedup_names], which appends [.1], [.2], ...  (The
    parsers also pass over a candidate that is another name of the
    header; without repeated names the header is kept as it is either
    way.) *)
Definition unnamed (i : nat) (name : string) : string :=
  match name with
  | EmptyString => ("Unnamed: " ++ str_of_Z (Z.of_nat i))%string
  | _ => name
  end.

Fixpoint counts_get (counts : list (string * nat)) (k : string) : nat :=
  match counts with
  | [] => 0%nat
  | (k', v) :: rest => if String.eqb k' k then v else counts_get rest k
  end.

(** The [while cur_count > 0] loop of [_dedup_names]. *)
Fixpoint dedup_one (fuel : nat) (counts : list (string * nat)) (col : string)
  : list (string * nat) * string :=
  match counts_get counts col, fuel with
  | S n, S fuel' =>
      dedup_one fuel' ((col, S (S n)) :: counts)
                (col ++ "." ++ str_of_Z (Z.of_nat (S n)))%string
  | _, _ => (counts, col)
  end.

Fixpoint dedup_names (fuel : nat) (counts : list (string * nat))
  (names : list string) : list string :=
  match names with
  | [] => []
  | col :: rest =>
      let (counts', col') := dedup_one fuel counts col in
      col' :: dedup_names fuel ((col', 1%nat) :: counts') rest
  end.

Fixpoint enumerate {A} (i : nat) (l : list A) : list (nat * A) :=
  match l with
  | [] => []
  | x :: rest => (i, x) :: enumerate (S i) rest
  end.

Definition header_names (header : list string) : list string :=
  dedup_names (length header) []
              (map (fun ix => unnamed (fst ix) (snd ix)) (enumerate 0 header)).

Definition is_blank_char (c : ascii) : bool :=
  Ascii.eqb c " " || Ascii.eqb c "009".

Fixpoint all_blank (s : string) : bool :=
  match s with
  | EmptyString => true
  | String c r => is_blank_char c && all_blank r
  end.

(** A line is skipped when it is empty or holds blanks only.  A record
    without fields is written as an empty line; a record of one empty
    field is written as two quotes and is not blank. *)
Definition nonblank (r : list string) : bool :=
  match r with
  | [] => false
  | [f] => negb (nonempty f && all_blank f)
  | _ => true
  end.

(** A record shorter than the header is completed with empty fields. *)
Definition pad (k : nat) (r : list string) : list string :=
  r ++ repeat EmptyString (k - length r).

Definition column_fields (j : nat) (recs : list (list string)) : list string :=
  map (fun r => nth j r EmptyString) recs.

(** Decoding: blank lines are skipped, the first line left is the header,
    a file with no line left has no columns to parse, and a record with
    more fields than the header is a parse error.  (When every record is
    one field longer than the header pandas takes the first field as the
    row label instead; frames with such an index are outside this model.) *)
Definition decode (g : csv) : result DataFrame :=
  match filter nonblank g with
  | [] => Raise EmptyDataError
  | header :: recs =>
      let k := length header in
      if existsb (fun r => (k <? length r)%nat) recs then Raise ParserError
      else
        let recs' := map (pad k) recs in
        let kinds := map (fun j => column_kind (column_fields j recs'))
                         (seq 0 k) in
        Ok (mkDF (map LStr (header_names header))
                 (map (fun r => map (fun kf => convert (fst kf) (snd kf))
                                    (combine kinds r))
                      recs'))
  end.

(** [pd.read_csv(path)] *)
Definition read_csv (path : string) (fs : FileSystem) : result DataFrame :=
  match file fs path with
  | Absent => Raise FileNotFoundError
  | Unreadable => Raise OSError
  | Content g => decode g
  end.

End Pandas.

(** ** Charts

    matplotlib is an external renderer: a call either goes through or
    raises.  [figure] stands for [plt.figure()], [draw] for the drawing,
    labelling and [plt.show()] calls on a prepared request. *)

Inductive ChartKind := Line | Bar.

Record PlotRequest := mkPlot {
  chart : ChartKind;
  xs : list Number;
  ys : list Number;
  title : string;
  xlabel : string;
  ylabel : string
}.

Record Pyplot := mkPyplot {
  figure : option Exn;
  draw : PlotRequest -> option Exn
}.

(** ** What a method prints *)

Inductive Report :=
| Loaded (rows cols : nat)
| ErrFileNotFound (path : string)
| ErrEmptyCSV
| ErrLoadFailed (e : Exn)
| Saved (path : string)
| ErrSaveFailed (e : Exn)
| SheetEmpty
| Table (shown : DataFrame)
| ErrExpected (expected got : nat)
| RowAdded
| ColumnAdded (name : string)
| ErrNoColumn (col : string)
| SumOf (col : string) (total : Q)
| ErrSum (e : Exn)
| AverageOf (col : string) (avg : Number)
| ErrAverage (e : Exn)
| NoRowsFound (col value : string)
| ErrPlotColumns
| ErrUnsupportedChart
| ErrPlot (e : Exn)
| Plotted (req : PlotRequest).

(** A call either returns after printing its report, or lets an exception
    escape to its caller. *)
Inductive Outcome :=
| Returns (printed : Report)
| Propagates (e : Exn).

(** ** class Spreadsheet *)

Record Spreadsheet := mkSheet { df : DataFrame }.

Definition __init__ (d : option DataFrame) : Spreadsheet :=
  mkSheet (match d with Some d => d | None => Pandas.DataFrame_new end).

Definition load_csv (path : string) (fs : Pandas.FileSystem)
  (self : Spreadsheet) : Spreadsheet * Outcome :=
  match Pandas.read_csv path fs with
  | Ok d => (mkSheet d, Returns (Loaded (Pandas.len d) (Pandas.ncols d)))
  | Raise FileNotFoundError => (self, Returns (ErrFileNotFound path))
  | Raise EmptyDataError => (self, Returns ErrEmptyCSV)
  | Raise exc => (self, Returns (ErrLoadFailed exc))
  end.

Definition save_csv (path : string) (fs : Pandas.FileSystem)
  (self : Spreadsheet) : Pandas.FileSystem * Outcome :=
  match Pandas.to_csv path (df self) fs with
  | (fs', None) => (fs', Returns (Saved path))
  | (fs', Some exc) => (fs', Returns (ErrSaveFailed exc))
  end.

Definition view (n : Z) (self : Spreadsheet) : Outcome :=
  if Pandas.empty (df self) then Returns SheetEmpty
  else Returns (Table (Pandas.head n (df self))).

Definition add_row (values : list string) (self : Spreadsheet)
  : Spreadsheet * Outcome :=
  if negb (Pandas.empty (df self))
     && negb (length values =? Pandas.ncols (df self))%nat
  then (self, Returns (ErrExpected (Pandas.ncols (df self)) (length values)))
  else if Pandas.empty (df self)
  then (mkSheet (Pandas.DataFrame_of_row values), Returns RowAdded)
  else match Pandas.loc_setitem_new values (df self) with
       | (d, None) => (mkSheet d, Returns RowAdded)
       | (d, Some exc) => (mkSheet d, Propagates exc)
       end.

Definition add_column (name : string) (values : list string)
  (self : Spreadsheet) : Spreadsheet * Outcome :=
  if negb (Pandas.empty (df self))
     && negb (length values =? Pandas.len (df self))%nat
  then (self, Returns (ErrExpected (Pandas.len (df self)) (length values)))
  else match Pandas.setitem name values (df self) with
       | (d, None) => (mkSheet d, Returns (ColumnAdded name))
       | (d, Some exc) => (mkSheet d, Propagates exc)
       end.

Definition sum_column (col : string) (self : Spreadsheet) : Outcome :=
  if negb (Pandas.contains (LStr col) (df self))
  then Returns (ErrNoColumn col)
  else match Pandas.to_numeric (Pandas.getitem (LStr col) (df self)) with
       | Ok numbers => Returns (SumOf col (Pandas.sum numbers))
       | Raise exc => Returns (ErrSum exc)
       end.

Definition average_column (col : string) (self : Spreadsheet) : Outcome :=
  if negb (Pandas.contains (LStr col) (df self))
  then Returns (ErrNoColumn col)
  else match Pandas.to_numeric (Pandas.getitem (LStr col) (df self)) with
       | Ok numbers => Returns (AverageOf col (Pandas.mean numbers))
       | Raise exc => Returns (ErrAverage exc)
       end.

Definition filter_rows (col value : string) (self : Spreadsheet) : Outcome :=
  if negb (Pandas.contains (LStr col) (df self))
  then Returns (ErrNoColumn col)
  else
    let mask := map (fun c => String.eqb (Pandas.astype_str c) value)
                    (Pandas.getitem (LStr col) (df self)) in
    let filtered := Pandas.boolean_index mask (df self) in
    if Pandas.empty filtered then Returns (NoRowsFound col value)
    else Returns (Table filtered).

Definition chart_kind (kind : string) : option ChartKind :=
  if String.eqb kind "line" then Some Line
  else if String.eqb kind "bar" then Some Bar
  else None.

(** [kind.title()] for the two kinds that are drawn. *)
Definition kind_title (k : ChartKind) : string :=
  match k with Line => "Line" | Bar => "Bar" end.

(** For a kind other than the two drawn, [x] is the unconverted column; it
    is not used before the method returns. *)
Definition plot (x_col y_col kind : string) (plt : Pyplot)
  (self : Spreadsheet) : Outcome :=
  if negb (Pandas.contains (LStr x_col) (df self))
     || negb (Pandas.contains (LStr y_col) (df self))
  then Returns ErrPlotColumns
  else
    match Pandas.to_numeric (Pandas.getitem (LStr x_col) (df self)),
          Pandas.to_numeric (Pandas.getitem (LStr y_col) (df self)) with
    | Ok x, Ok y =>
        match figure plt with
        | Some exc => Returns (ErrPlot exc)
        | None =>
            match chart_kind kind with
            | None => Returns ErrUnsupportedChart
            | Some k =>
                let req :=
                  mkPlot k (Pandas.values x) (Pandas.values y)
                    (kind_title k ++ " plot of " ++ y_col ++ " vs " ++ x_col)
                    x_col y_col in
                match draw plt req with
                | Some exc => Returns (ErrPlot exc)
                | None => Returns (Plotted req)
                end
            end
        end
    | Raise exc, _ => Returns (ErrPlot exc)
    | _, Raise exc => Returns (ErrPlot exc)
    end.

(** ** The operations of the store, one call at a time

    The menu loop owns one sheet and calls one method per choice.  A call
    runs against the sheet, the files it may read or write, and the chart
    renderer. *)

Record World := mkWorld {
  sheet : Spreadsheet;
  disk : Pandas.FileSystem;
  pyplot : Pyplot
}.

Inductive Op :=
| Load (path : string)
| Save (path : string)
| View (n : Z)
| AddRow (values : list string)
| AddColumn (name : string) (values : list string)
| Sum (col : string)
| Average (col : string)
| Filter (col value : string)
| Plot (x_col y_col kind : string).

Definition run (op : Op) (w : World) : World * Outcome :=
  match op with
  | Load path =>
      let (s, out) := load_csv path (disk w) (sheet w) in
      (mkWorld s (disk w) (pyplot w), out)
  | Save path =>
      let (fs, out) := save_csv path (disk w) (sheet w) in
      (mkWorld (sheet w) fs (pyplot w), out)
  | View n => (w, view n (sheet w))
  | AddRow values =>
      let (s, out) := add_row values (sheet w) in
      (mkWorld s (disk w) (pyplot w), out)
  | AddColumn name values =>
      let (s, out) := add_column name values (sheet w) in
      (mkWorld s (disk w) (pyplot w), out)
  | Sum col => (w, sum_column col (sheet w))
  | Average col => (w, average_column col (sheet w))
  | Filter col value => (w, filter_rows col value (sheet w))
  | Plot x_col y_col kind => (w, plot x_col y_col kind (pyplot w) (sheet w))
  end.

(** The failure kinds of the specification, and the reports that stand for
    them.  A failed computation of a whole column or of a chart is the
    specification's computation error. *)
Inductive FailureKind :=
| NotFound
| EmptyData
| ParseError
| WriteError
| ColumnNotFound
| ShapeMismatch
| UnsupportedChartType
| ComputationError.

Definition failure_kind (r : Report) : option FailureKind :=
  match r with
  | ErrFileNotFound _ => Some NotFound
  | ErrEmptyCSV => Some EmptyData
  | ErrLoadFailed _ => Some ParseError
  | ErrSaveFailed _ => Some WriteError
  | ErrExpected _ _ => Some ShapeMismatch
  | ErrNoColumn _ => Some ColumnNotFound
  | ErrPlotColumns => Some ColumnNotFound
  | ErrUnsupportedChart => Some UnsupportedChartType
  | ErrSum _ | ErrAverage _ | ErrPlot _ => Some ComputationError
  | Loaded _ _ | Saved _ | SheetEmpty | Table _ | RowAdded | ColumnAdded _
  | SumOf _ _ | AverageOf _ _ | NoRowsFound _ _ | Plotted _ => None
  end.

(** An operation fails when it reports a failure kind or lets an exception
    escape. *)
Definition fails (out : Outcome) : bool :=
  match out with
  | Returns r => match failure_kind r with Some _ => true | None => false end
  | Propagates _ => true
  end.

(** The reading of a row as a record: the cell under a label. *)
Fixpoint row_get (cols : list Label) (r : list Cell) (name : Label)
  : option Cell :=
  match cols, r with
  | l :: cols', c :: r' =>
      if label_eqb l name then Some c else row_get cols' r' name
  | _, _ => None
  end.

Definition cell (d : DataFrame) (i : nat) (name : Label) : option Cell :=
  match nth_error (data d) i with
  | Some r => row_get (columns d) r name
  | None => None
  end.

(** ** Readings of the specification *)

(** The specification's reading of a match: the row's cell under the
    column, in its string form, is the value, character for character. *)
Definition row_matches (cols : list Label) (col value : string)
  (r : list Cell) : bool :=
  match row_get cols r (LStr col) with
  | Some c => String.eqb (Pandas.astype_str c) value
  | None => false
  end.

Definition matching_rows (col value : string) (d : DataFrame)
  : list (list Cell) :=
  filter (row_matches (columns d) col value) (data d).

(** Text that [read_csv] gives back as the same text: a word of ASCII
    letters which, letter case aside, is none of the words pandas reads
    as a missing value, a boolean or a number. *)
Definition is_upper (c : ascii) : bool :=
  let n := nat_of_ascii c in (65 <=? n)%nat && (n <=? 90)%nat.

Definition is_lower (c : ascii) : bool :=
  let n := nat_of_ascii c in (97 <=? n)%nat && (n <=? 122)%nat.

Definition to_lower (c : ascii) : ascii :=
  if is_upper c then ascii_of_nat (nat_of_ascii c + 32) else c.

Fixpoint lowercase (s : string) : string :=
  match s with
  | EmptyString => EmptyString
  | String c r => String (to_lower c) (lowercase r)
  end.

Fixpoint all_letters (s : string) : bool :=
  match s with
  | EmptyString => true
  | String c r => (is_upper c || is_lower c) && all_letters r
  end.

Definition RESERVED_WORDS : list string :=
  [ "na"; "nan"; "null"; "none"; "true"; "false"; "inf"; "infinity" ].

Definition plain_word (s : string) : bool :=
  Pandas.nonempty s && all_letters s
  && negb (existsb (String.eqb (lowercase s)) RESERVED_WORDS).

(** Text that is plainly no number, no boolean and no missing-value
    marker, whoever reads it: printable ASCII that starts with a letter
    or holds a character no notation of numbers uses, and that, blanks
    and letter case aside, is none of the reserved words. *)
Definition is_printable (c : ascii) : bool :=
  let n := nat_of_ascii c in (32 <=? n)%nat && (n <=? 126)%nat.

Fixpoint all_printable (s : string) : bool :=
  match s with
  | EmptyString => true
  | String c r => is_printable c && all_printable r
  end.

Definition NUMBER_CHARS : string := "0123456789+-. _adefijntxyADEFIJNTXY".

Fixpoint occurs (c : ascii) (s : string) : bool :=
  match s with
  | EmptyString => false
  | String c' r => Ascii.eqb c c' || occurs c r
  end.

Fixpoint has_foreign (s : string) : bool :=
  match s with
  | EmptyString => false
  | String c r => negb (occurs c NUMBER_CHARS) || has_foreign r
  end.

Definition starts_with_letter (s : string) : bool :=
  match s with
  | EmptyString => false
  | String c _ => is_upper c || is_lower c
  end.

Fixpoint unspaced (s : string) : string :=
  match s with
  | EmptyString => EmptyString
  | String c r => if Ascii.eqb c " " then unspaced r else String c (unspaced r)
  end.

Definition reserved (s : string) : bool :=
  Pandas.is_na s
  || existsb (String.eqb (lowercase (unspaced s))) RESERVED_WORDS.

Definition safe_text (s : string) : bool :=
  all_printable s && (starts_with_letter s || has_foreign s)
  && negb (reserved s).

(** The specification's reading of the sum.  A cell that cannot be coerced
    to a number: a missing cell, or text that is plainly no number.  A
    cell that can: an integer, or text that writes one.  The sum of the
    remaining cells is the sum of those integers. *)
Definition certainly_text (c : Cell) : bool :=
  match c with
  | CStr s => safe_text s || negb (Pandas.nonempty s)
  | CNaN => true
  | CInt _ => false
  end.

(** The characters of the signed decimal notation. *)
Definition numeral_char (c : ascii) : bool :=
  Pandas.is_digit c || Ascii.eqb c "+" || Ascii.eqb c "-" || Ascii.eqb c ".".

Fixpoint all_numeral (s : string) : bool :=
  match s with
  | EmptyString => true
  | String c r => numeral_char c && all_numeral r
  end.

Definition clear_cell (c : Cell) : bool :=
  match Pandas.integer_of_cell c with
  | Some _ => true
  | None => certainly_text c
  end.

Fixpoint integers (cells : list Cell) : list Z :=
  match cells with
  | [] => []
  | c :: rest =>
      match Pandas.integer_of_cell c with
      | Some z => z :: integers rest
      | None => integers rest
      end
  end.

Definition sum_Z (zs : list Z) : Z := fold_right Z.add 0%Z zs.

Definition sum_abs (zs : list Z) : Z :=
  fold_right (fun z acc => (Z.abs z + acc)%Z) 0%Z zs.

(** Up to 2^53 the integers are float64 numbers, and int64 ones. *)
Definition EXACT : Z := 2 ^ 53.

(** A column on which the total does not depend on how the numbers are
    held: every cell is an integer or plainly text, and the absolute
    values of the integers add up to at most 2^53. *)
Definition tame (cells : list Cell) : bool :=
  forallb clear_cell cells && (sum_abs (integers cells) <=? EXACT)%Z.

(** A column to chart: every cell an integer of absolute value at most
    2^53, or plainly text. *)
Definition chartable (cells : list Cell) : bool :=
  forallb (fun c => match Pandas.integer_of_cell c with
                    | Some z => (Z.abs z <=? EXACT)%Z
                    | None => certainly_text c
                    end) cells.

(** The number a chart is given for a cell: the integer it writes, or
    [nan]. *)
Definition number_of (c : Cell) : Number :=
  match Pandas.integer_of_cell c with
  | Some z => Finite (inject_Z z)
  | None => nan
  end.

(** ** Sheets the program builds

    The sheets reached from a new store by the edits [add_row] and
    [add_column].  Their rows are labelled 0, 1, 2, ... *)
Inductive built : Spreadsheet -> Prop :=
| built_new : built (__init__ None)
| built_add_row (values : list string) (self : Spreadsheet) :
    built self -> built (fst (add_row values self))
| built_add_column (name : string) (values : list string)
    (self : Spreadsheet) :
    built self -> built (fst (add_column name values self)).

Definition in_int64 (z : Z) : bool :=
  (Pandas.int64_min <=? z)%Z && (z <=? Pandas.int64_max)%Z.

Definition int_cell (c : Cell) : bool :=
  match c with CInt z => in_int64 z | _ => false end.

Definition word_label (l : Label) : bool :=
  match l with LStr s => plain_word s | LInt _ => false end.

(** The cells of the [j]-th column, top to bottom. *)
Definition column_cells (j : nat) (d : DataFrame) : list Cell :=
  map (fun r => nth j r CNaN) (data d).

(** A table that is written and read back as itself: at least one
    column, every column name text that is plainly no number, and every
    column either all int64 integers or all such text and missing
    cells. *)
Definition text_label (l : Label) : bool :=
  match l with LStr s => safe_text s | LInt _ => false end.

Definition text_or_missing (c : Cell) : bool :=
  match c with
  | CStr s => safe_text s
  | CNaN => true
  | CInt _ => false
  end.

Definition safe_table (d : DataFrame) : bool :=
  negb (Pandas.ncols d =? 0)%nat
  && forallb text_label (columns d)
  && forallb (fun j => forallb int_cell (column_cells j d)
                       || forallb text_or_missing (column_cells j d))
             (seq 0 (Pandas.ncols d)).

(** Every line written for the table is printable ASCII and not blank. *)
Definition written_plainly (d : DataFrame) : bool :=
  forallb (fun r => Pandas.nonblank r && forallb all_printable r)
          (Pandas.encode d).

(** Saving the sheet to [path], then loading [path] into it. *)
Definition save_then_load (path : string) (fs : Pandas.FileSystem)
  (self : Spreadsheet) : Spreadsheet * Outcome :=
  load_csv path (fst (save_csv path fs self)) self.

(** ** Sheets, disks and renderers used as examples *)

Definition one_column : Spreadsheet :=
  mkSheet (mkDF [LStr "a"] [[CStr "1"]; [CStr "2"]]).


Definition headless : Pyplot := mkPyplot None (fun _ => None).

Definition header_only : Spreadsheet :=
  mkSheet (mkDF [LStr "name"; LStr "age"] []).

Definition numbers_sheet : Spreadsheet :=
  mkSheet (mkDF [LStr "n"] [[CStr "1"]; [CStr "2"]; [CStr "x"]; [CStr "4"]]).

Definition words_sheet : Spreadsheet :=
  mkSheet (mkDF [LStr "id"; LStr "w"]
                [[CInt 1; CStr "abc"]; [CInt 2; CStr ""]; [CInt 3; CNaN]]).

Definition status_sheet : Spreadsheet :=
  mkSheet (mkDF [LStr "status"]
                [[CStr "active"]; [CStr "Active"]; [CStr "active"]]).

Definition tagged_sheet : Spreadsheet :=
  mkSheet (mkDF [LStr "id"; LStr "status"]
                [[CInt 1; CStr "active"]; [CInt 2; CStr "Active"];
                 [CInt 3; CStr "active"]; [CInt 4; CStr "3.0"]]).

(** The sheet after [add_row []] on a new store: one row, no column. *)
Definition columnless : Spreadsheet := mkSheet (mkDF [] [[]]).

Definition any_disk : Pandas.FileSystem :=
  Pandas.mkFS (fun _ => Pandas.Unreadable) (fun _ => true).

Definition blank_note : Spreadsheet :=
  mkSheet (mkDF [LStr "name"; LStr "note"] [[CStr "ann"; CStr ""]]).

Definition digits_typed : Spreadsheet :=
  mkSheet (mkDF [LStr "n"] [[CStr "1"]; [CStr "2"]]).

Definition positional : Spreadsheet :=
  mkSheet (mkDF [LInt 0; LInt 1] [[CStr "x"; CStr "y"]]).

Definition ledger : Spreadsheet :=
  mkSheet (mkDF [LStr "item"; LStr "qty"]
                [[CStr "bolt"; CInt 12]; [CStr "nut"; CInt (-3)]]).

(** The sheet after [add_column "n"] of two numbers on a new store. *)
Definition large_numbers : Spreadsheet :=
  fst (add_column "n" ["9223372036854775807"; "1"] (__init__ None)).

Definition parts_sheet : Spreadsheet :=
  mkSheet (mkDF [LStr "part no"; LStr "note"; LStr "qty"]
                [[CStr "bolt-7"; CStr "hello world"; CInt 12];
                 [CStr "nut #2"; CNaN; CInt (-3)]]).

(** ** Sequences of calls

    The calls of one run of the program, in order.  An exception that
    leaves a call ends the run, as it ends [main]. *)

Fixpoint session (ops : list Op) (w : World) : World * list Outcome :=
  match ops with
  | [] => (w, [])
  | op :: rest =>
      let (w', out) := run op w in
      match out with
      | Propagates _ => (w', [out])
      | Returns _ =>
          let (w'', outs) := session rest w' in (w'', out :: outs)
      end
  end.

(** The world [main] starts in: [sheet = Spreadsheet()]. *)
Definition new_world (fs : Pandas.FileSystem) (plt : Pyplot) : World :=
  mkWorld (__init__ None) fs plt.

(** The run [main] is in after [add_row []] on a new store. *)
Definition columnless_world : World :=
  mkWorld columnless any_disk headless.

Definition five_rows : Spreadsheet :=
  mkSheet (mkDF [LStr "k"]
                [[CInt 1]; [CInt 2]; [CInt 3]; [CInt 4]; [CInt 5]]).

(** ** The menu loop

    [main] reads lines from standard input and calls one method per
    choice.  The lines still to be read are a list; [input] on the empty
    list is the [EOFError] of Python, which nothing in [main] catches.
    The prompts and the text of the menu are not modelled, only the fact
    that the menu is shown.

    The three built-ins [main] applies to a line are parameters of the
    model: [int] ([None] when it raises [ValueError]), [str.strip] and
    [str.lower]. *)

Record Python := mkPython {
  py_int : string -> option Z;
  py_strip : string -> string;
  py_lower : string -> string
}.

Inductive Shown :=
| Menu
| Said (r : Report)
| Goodbye
| InvalidOption.

(** How a run is cut short: [input] at the end of the input, [int] on a
    line that is no integer, or an exception leaving a method. *)
Inductive Crash :=
| EndOfInput
| BadNumber
| Escaped (e : Exn).

Inductive Ending :=
| Exited
| Crashed (c : Crash).

Inductive Step :=
| Next (w : World) (rest : list string) (out : list Shown)
| Stop (w : World) (out : list Shown) (how : Ending).

(** [input(...)], then the rest of the branch. *)
Definition input (w : World) (lines : list string)
  (k : string -> list string -> Step) : Step :=
  match lines with
  | [] => Stop w [Menu] (Crashed EndOfInput)
  | l :: rest => k l rest
  end.

(** [[input(...) for i in range(n)]] *)
Fixpoint read_lines (n : nat) (lines : list string)
  : option (list string * list string) :=
  match n with
  | O => Some ([], lines)
  | S n' =>
      match lines with
      | [] => None
      | l :: rest =>
          match read_lines n' rest with
          | Some (ls, rest') => Some (l :: ls, rest')
          | None => None
          end
      end
  end.

Definition inputs (w : World) (n : nat) (lines : list string)
  (k : list string -> list string -> Step) : Step :=
  match read_lines n lines with
  | None => Stop w [Menu] (Crashed EndOfInput)
  | Some (ls, rest) => k ls rest
  end.

(** A method call of [main]: what it prints is shown and the loop goes
    on, unless an exception leaves it. *)
Definition call (op : Op) (w : World) (rest : list string) : Step :=
  let (w', out) := run op w in
  match out with
  | Returns r => Next w' rest [Menu; Said r]
  | Propagates e => Stop w' [Menu] (Crashed (Escaped e))
  end.

(** [s or default] on strings. *)
Definition or_else (s default : string) : string :=
  match s with EmptyString => default | _ => s end.

(** One turn of the [while True] loop. *)
Definition menu_step (py : Python) (w : World) (lines : list string) : Step :=
  input w lines (fun line rest =>
    let choice := py_strip py line in
    if String.eqb choice "1" then
      input w rest (fun path rest => call (Load (py_strip py path)) w rest)
    else if String.eqb choice "2" then
      input w rest (fun path rest => call (Save (py_strip py path)) w rest)
    else if String.eqb choice "3" then
      input w rest (fun l rest =>
        let n := match py_int py (or_else l "5") with
                 | Some n => n
                 | None => 5%Z
                 end in
        call (View n) w rest)
    else if String.eqb choice "4" then
      if Pandas.empty (df (sheet w)) then
        input w rest (fun l rest =>
          match py_int py l with
          | None => Stop w [Menu] (Crashed BadNumber)
          | Some cols =>
              inputs w (Z.to_nat cols) rest (fun values rest =>
                call (AddRow values) w rest)
          end)
      else
        inputs w (Pandas.ncols (df (sheet w))) rest (fun values rest =>
          call (AddRow values) w rest)
    else if String.eqb choice "5" then
      input w rest (fun name rest =>
        if Pandas.empty (df (sheet w)) then
          input w rest (fun l rest =>
            match py_int py l with
            | None => Stop w [Menu] (Crashed BadNumber)
            | Some count =>
                inputs w (Z.to_nat count) rest (fun values rest =>
                  call (AddColumn name values) w rest)
            end)
        else
          inputs w (Pandas.len (df (sheet w))) rest (fun values rest =>
            call (AddColumn name values) w rest))
    else if String.eqb choice "6" then
      input w rest (fun col rest => call (Sum col) w rest)
    else if String.eqb choice "7" then
      input w rest (fun col rest => call (Average col) w rest)
    else if String.eqb choice "8" then
      input w rest (fun col rest =>
        input w rest (fun val rest => call (Filter col val) w rest))
    else if String.eqb choice "9" then
      input w rest (fun x_col rest =>
        input w rest (fun y_col rest =>
          input w rest (fun l rest =>
            let kind := or_else (py_lower py (py_strip py l)) "line" in
            call (Plot x_col y_col kind) w rest)))
    else if String.eqb choice "0" then
      Stop w [Menu; Goodbye] Exited
    else
      Next w rest [Menu; InvalidOption]).

(** The loop, for at most [fuel] turns. *)
Fixpoint main_loop (fuel : nat) (py : Python) (w : World)
  (lines : list string) : option (World * list Shown * Ending) :=
  match fuel with
  | O => None
  | S fuel' =>
      match menu_step py w lines with
      | Stop w' out how => Some (w', out, how)
      | Next w' rest out =>
          match main_loop fuel' py w' rest with
          | Some (w'', out', how) => Some (w'', out ++ out', how)
          | None => None
          end
      end
  end.

(** [main()]: every turn reads at least one line, so one turn more than
    there are lines is enough. *)
Definition main (py : Python) (fs : Pandas.FileSystem) (plt : Pyplot)
  (lines : list string) : option (World * list Shown * Ending) :=
  main_loop (S (length lines)) py (new_world fs plt) lines.

(** The built-ins on lines typed without blanks around them, in ASCII:
    [strip] has nothing to remove, [int] reads an optional minus sign and
    decimal digits, [lower] lowers the letters A to Z. *)
Definition typed_plainly : Python :=
  mkPython (fun s => option_map Z.of_int (NilZero.int_of_string s))
           (fun s => s)
           lowercase.

(** A cell of a text column that survives a save and a load: a plain
    word, or the missing marker (written as an empty field). *)
Definition word_or_missing (c : Cell) : bool :=
  match c with
  | CStr s => plain_word s
  | CNaN => true
  | CInt _ => false
  end.

(** A table of plain words: at least one column, every column name a
    plain word, and every column either all int64 integers or all plain
    words and missing cells. *)
Definition sparse_table (d : DataFrame) : bool :=
  negb (Pandas.ncols d =? 0)%nat
  && forallb word_label (columns d)
  && forallb (fun j => forallb int_cell (column_cells j d)
                       || forallb word_or_missing (column_cells j d))
             (seq 0 (Pandas.ncols d)).

Definition gaps_sheet : Spreadsheet :=
  mkSheet (mkDF [LStr "item"; LStr "note"; LStr "qty"]
                [[CStr "bolt"; CNaN; CInt 12];
                 [CStr "nut"; CStr "spare"; CInt (-3)];
                 [CNaN; CNaN; CInt 0]]).

(** * Properties *)

(** ** Labels and rows *)

Lemma label_eqb_eq (a b : Label) : label_eqb a b = true <-> a = b.
Proof.
  destruct a, b; simpl; split; intro H; try discriminate; try congruence.
  - apply Z.eqb_eq in H. now subst.
  - injection H as ->. apply Z.eqb_refl.
  - apply String.eqb_eq in H. now subst.
  - injection H as ->. apply String.eqb_refl.
Qed.

Lemma label_eqb_refl (a : Label) : label_eqb a a = true.
Proof. now apply label_eqb_eq. Qed.

Lemma label_eqb_neq (a b : Label) : label_eqb a b = false <-> a <> b.
Proof.
  split.
  - intros H E. apply label_eqb_eq in E. congruence.
  - intros H. destruct (label_eqb a b) eqn:E; [|reflexivity].
    apply label_eqb_eq in E. contradiction.
Qed.

Lemma contains_In (name : Label) (d : DataFrame) :
  Pandas.contains name d = true <-> In name (columns d).
Proof.
  unfold Pandas.contains. rewrite existsb_exists. split.
  - intros [x [Hx E]]. apply label_eqb_eq in E. now subst.
  - intros H. exists name. split; [assumption | apply label_eqb_refl].
Qed.

(** In a row read as a record, the cell under the [j]-th label is the
    [j]-th cell, provided no earlier label is the same. *)
Lemma row_get_nth (cols : list Label) (r : list Cell) (j : nat)
  (name : Label) (c : Cell) :
  NoDup cols ->
  nth_error cols j = Some name ->
  nth_error r j = Some c ->
  row_get cols r name = Some c.
Proof.
  revert r j. induction cols as [|l cols IH]; intros r j ND Hc Hr.
  - destruct j; discriminate.
  - destruct r as [|c0 r]; [destruct j; discriminate|].
    inversion ND as [|? ? Hnotin ND']; subst.
    destruct j as [|j]; simpl in *.
    + injection Hc as ->. injection Hr as ->. now rewrite label_eqb_refl.
    + assert (Hne : label_eqb l name = false).
      { apply label_eqb_neq. intros ->. apply Hnotin.
        eapply nth_error_In; eassumption. }
      rewrite Hne. eapply IH; eassumption.
Qed.

Lemma empty_false (d : DataFrame) :
  Pandas.empty d = false <-> columns d <> [] /\ data d <> [].
Proof.
  unfold Pandas.empty, Pandas.ncols, Pandas.len.
  destruct (columns d), (data d); simpl; split; intros H;
    try discriminate; try reflexivity; try (destruct H; congruence).
  split; discriminate.
Qed.

Lemma RangeIndex_NoDup (n : nat) : NoDup (Pandas.RangeIndex n).
Proof.
  unfold Pandas.RangeIndex. apply Injective_map_NoDup.
  - intros a b H. injection H as H. lia.
  - apply seq_NoDup.
Qed.

Lemma RangeIndex_nth (n j : nat) :
  (j < n)%nat ->
  nth_error (Pandas.RangeIndex n) j = Some (LInt (Z.of_nat j)).
Proof.
  intros H. unfold Pandas.RangeIndex.
  rewrite nth_error_map, nth_error_seq.
  apply Nat.ltb_lt in H. now rewrite H.
Qed.

Lemma wf_DataFrame_of_row (values : list string) :
  wf (Pandas.DataFrame_of_row values).
Proof.
  split; simpl.
  - apply RangeIndex_NoDup.
  - unfold rectangular. simpl. constructor; [|constructor].
    unfold Pandas.RangeIndex. now rewrite !length_map, length_seq.
Qed.

(** ** The frame invariant is kept by the two edits *)

Lemma ensure_valid_index_wf (n : nat) (d : DataFrame) :
  wf d -> wf (Pandas.ensure_valid_index n d).
Proof.
  intros [ND RECT]. unfold Pandas.ensure_valid_index.
  destruct (_ && _); [|now split].
  split; [assumption|]. unfold rectangular. simpl.
  apply Forall_forall. intros r Hr. apply repeat_spec in Hr. subst r.
  apply repeat_length.
Qed.

Lemma add_row_wf (values : list string) (self : Spreadsheet) :
  wf (df self) -> wf (df (fst (add_row values self))).
Proof.
  intros W. unfold add_row, Pandas.loc_setitem_new.
  destruct (Pandas.empty (df self)) eqn:E; simpl.
  - apply wf_DataFrame_of_row.
  - destruct (length values =? Pandas.ncols (df self))%nat eqn:L; simpl;
      [|assumption].
    apply Nat.eqb_eq in L. destruct W as [ND RECT].
    split; [assumption|]. unfold rectangular in *. simpl.
    apply Forall_app. split; [assumption|].
    constructor; [|constructor]. now rewrite length_map.
Qed.

(** ** Failures do not touch the table *)

Lemma ensure_valid_index_len (n : nat) (d : DataFrame) :
  Pandas.len (Pandas.ensure_valid_index n d) =
  if (Pandas.len d =? 0)%nat && (0 <? n)%nat then n else Pandas.len d.
Proof.
  unfold Pandas.ensure_valid_index.
  destruct ((Pandas.len d =? 0)%nat && (0 <? n)%nat); [|reflexivity].
  unfold Pandas.len. simpl. apply repeat_length.
Qed.






(** ** Adding a row *)

Lemma add_row_mismatch (values : list string) (self : Spreadsheet) :
  Pandas.empty (df self) = false ->
  length values <> Pandas.ncols (df self) ->
  add_row values self =
  (self, Returns (ErrExpected (Pandas.ncols (df self)) (length values))).
Proof.
  intros E N. unfold add_row. rewrite E.
  apply Nat.eqb_neq in N. now rewrite N.
Qed.

Lemma add_row_append (values : list string) (self : Spreadsheet) :
  Pandas.empty (df self) = false ->
  length values = Pandas.ncols (df self) ->
  add_row values self =
  (mkSheet (mkDF (columns (df self)) (data (df self) ++ [map CStr values])),
   Returns RowAdded).
Proof.
  intros E N. unfold add_row, Pandas.loc_setitem_new. rewrite E.
  apply Nat.eqb_eq in N. now rewrite N.
Qed.

Lemma add_row_replace (values : list string) (self : Spreadsheet) :
  Pandas.empty (df self) = true ->
  add_row values self =
  (mkSheet (Pandas.DataFrame_of_row values), Returns RowAdded).
Proof. intros E. unfold add_row. now rewrite E. Qed.

Lemma wf_one_column : wf (df one_column).
Proof.
  split; simpl.
  - constructor; [intros []|constructor].
  - repeat constructor.
Qed.

(** C4. On an empty store, [add_row ["x"; "y"]] leaves a table whose
    columns are the positions 0 and 1, written "0" and "1", and whose one
    row holds "x" under 0 and "y" under 1.  In general, on an empty table
    the call builds a new table: the column names are the positions
    0, 1, 2, ... of the values, and there is exactly one row, the values
    themselves. *)
Theorem add_row_on_empty_table :
  (add_row ["x"; "y"] (__init__ None)
   = (mkSheet (mkDF [LInt 0; LInt 1] [[CStr "x"; CStr "y"]]),
      Returns RowAdded)
   /\ map Pandas.label_str
          (columns (df (fst (add_row ["x"; "y"] (__init__ None)))))
      = ["0"; "1"]
   /\ cell (df (fst (add_row ["x"; "y"] (__init__ None)))) 0 (LInt 0)
      = Some (CStr "x")
   /\ cell (df (fst (add_row ["x"; "y"] (__init__ None)))) 0 (LInt 1)
      = Some (CStr "y"))
  /\ (forall values self,
        Pandas.empty (df self) = true ->
        snd (add_row values self) = Returns RowAdded
        /\ columns (df (fst (add_row values self)))
           = map (fun i => LInt (Z.of_nat i)) (seq 0 (length values))
        /\ Pandas.ncols (df (fst (add_row values self))) = length values
        /\ data (df (fst (add_row values self))) = [map CStr values]
        /\ Pandas.len (df (fst (add_row values self))) = 1%nat
        /\ (forall j v,
              nth_error values j = Some v ->
              cell (df (fst (add_row values self))) 0 (LInt (Z.of_nat j))
              = Some (CStr v))).
Proof.
  split; [repeat split|].
  intros values self E. rewrite (add_row_replace values self E). simpl.
  unfold Pandas.ncols, Pandas.len. simpl.
  repeat split.
  - unfold Pandas.RangeIndex. now rewrite length_map, length_seq.
  - intros j v Hv. unfold cell. simpl.
    apply row_get_nth with (j := j).
    + apply RangeIndex_NoDup.
    + apply RangeIndex_nth. apply nth_error_Some. congruence.
    + now rewrite nth_error_map, Hv.
Qed.

Lemma add_row_on_empty_table_witness :
  data (df (fst (add_row ["p"; "q"; "r"] (mkSheet (mkDF [] [])))))
  = [[CStr "p"; CStr "q"; CStr "r"]].
Proof.
  destruct (proj2 add_row_on_empty_table ["p"; "q"; "r"]
              (mkSheet (mkDF [] [])) eq_refl) as (_ & _ & _ & D & _).
  exact D.
Defined.

(** C10. A table with columns but no rows counts as empty: for every list
    of values, [add_row] does not compare its length with the number of
    columns, reports no shape mismatch, and replaces the whole table by
    the one-row table whose columns are the positions 0, 1, 2, ...; the
    names the table had are gone. *)
Theorem add_row_on_rowless_table (values : list string)
  (self : Spreadsheet) :
  columns (df self) <> [] ->
  data (df self) = [] ->
  add_row values self
  = (mkSheet (Pandas.DataFrame_of_row values), Returns RowAdded)
  /\ fails (snd (add_row values self)) = false
  /\ columns (df (fst (add_row values self)))
     = map (fun i => LInt (Z.of_nat i)) (seq 0 (length values))
  /\ data (df (fst (add_row values self))) = [map CStr values].
Proof.
  intros _ D.
  assert (E : Pandas.empty (df self) = true).
  { unfold Pandas.empty, Pandas.len. rewrite D. simpl. apply orb_true_r. }
  rewrite (add_row_replace values self E). repeat split.
Qed.

Lemma add_row_on_rowless_table_witness :
  add_row ["x"; "y"; "z"] header_only
  = (mkSheet (mkDF [LInt 0; LInt 1; LInt 2] [[CStr "x"; CStr "y"; CStr "z"]]),
     Returns RowAdded).
Proof.
  refine (proj1 (add_row_on_rowless_table ["x"; "y"; "z"] header_only _ _)).
  - discriminate.
  - reflexivity.
Defined.

(** ** Adding a column *)

Lemma nth_error_combine {A B} (l1 : list A) (l2 : list B) (i : nat) :
  nth_error (combine l1 l2) i =
  match nth_error l1 i, nth_error l2 i with
  | Some a, Some b => Some (a, b)
  | _, _ => None
  end.
Proof.
  revert l2 i. induction l1 as [|a l1 IH]; intros l2 i.
  - now destruct i.
  - destruct l2 as [|b l2]; destruct i as [|i]; simpl; try reflexivity.
    + now destruct (nth_error l1 i).
    + apply IH.
Qed.

Lemma length_overwrite (cols : list Label) (name : Label) (v : Cell)
  (r : list Cell) :
  length r = length cols ->
  length (Pandas.overwrite cols name v r) = length cols.
Proof.
  intros H. unfold Pandas.overwrite.
  rewrite length_map, length_combine. lia.
Qed.

Lemma row_get_overwrite_same (cols : list Label) (name : Label) (v : Cell)
  (r : list Cell) :
  In name cols -> length r = length cols ->
  row_get cols (Pandas.overwrite cols name v r) name = Some v.
Proof.
  revert r. induction cols as [|l cols IH]; intros r HIn HL; [destruct HIn|].
  destruct r as [|c r]; [discriminate|].
  unfold Pandas.overwrite in *. simpl.
  destruct (label_eqb l name) eqn:E; [reflexivity|].
  apply IH.
  - destruct HIn as [->|HIn]; [|assumption].
    now rewrite label_eqb_refl in E.
  - simpl in HL. lia.
Qed.

Lemma row_get_overwrite_other (cols : list Label) (name other : Label)
  (v : Cell) (r : list Cell) :
  other <> name ->
  row_get cols (Pandas.overwrite cols name v r) other = row_get cols r other.
Proof.
  intros N. revert r. induction cols as [|l cols IH]; intros r.
  - reflexivity.
  - destruct r as [|c r]; [reflexivity|].
    unfold Pandas.overwrite in *. simpl.
    destruct (label_eqb l other) eqn:E.
    + apply label_eqb_eq in E. subst l.
      apply label_eqb_neq in N. now rewrite N.
    + apply IH.
Qed.

Lemma row_get_app_new (cols : list Label) (r : list Cell) (name : Label)
  (v : Cell) :
  ~ In name cols -> length r = length cols ->
  row_get (cols ++ [name]) (r ++ [v]) name = Some v.
Proof.
  revert r. induction cols as [|l cols IH]; intros r HN HL.
  - destruct r; [|discriminate]. simpl. now rewrite label_eqb_refl.
  - destruct r as [|c r]; [discriminate|]. simpl.
    destruct (label_eqb l name) eqn:E.
    + apply label_eqb_eq in E. subst l. exfalso. apply HN. now left.
    + apply IH; [|simpl in HL; lia]. intros H. apply HN. now right.
Qed.

Lemma row_get_app_other (cols : list Label) (r : list Cell)
  (name other : Label) (v : Cell) :
  other <> name -> length r = length cols ->
  row_get (cols ++ [name]) (r ++ [v]) other = row_get cols r other.
Proof.
  intros N. revert r. induction cols as [|l cols IH]; intros r HL.
  - destruct r; [|discriminate]. simpl.
    assert (E : label_eqb name other = false).
    { apply label_eqb_neq. congruence. }
    now rewrite E.
  - destruct r as [|c r]; [discriminate|]. simpl.
    destruct (label_eqb l other); [reflexivity|].
    apply IH. simpl in HL. lia.
Qed.

Lemma set_column_len (name : Label) (vals : list Cell) (d : DataFrame) :
  length vals = Pandas.len d ->
  Pandas.len (Pandas.set_column name vals d) = Pandas.len d.
Proof.
  unfold Pandas.set_column, Pandas.len. intros H.
  destruct (Pandas.contains name d); simpl;
    rewrite length_map, length_combine; lia.
Qed.

Lemma set_column_wf (name : Label) (vals : list Cell) (d : DataFrame) :
  wf d -> wf (Pandas.set_column name vals d).
Proof.
  intros [ND RECT]. unfold Pandas.set_column.
  destruct (Pandas.contains name d) eqn:C; split; simpl.
  - assumption.
  - unfold rectangular in *. simpl. apply Forall_forall.
    intros r Hr. apply in_map_iff in Hr. destruct Hr as [[r0 v] [<- Hin]].
    simpl. apply length_overwrite.
    apply in_combine_l in Hin.
    rewrite Forall_forall in RECT. now apply RECT.
  - apply NoDup_app; [assumption | repeat constructor; intros [] |].
    intros a Ha [<-|[]].
    apply contains_In in Ha. congruence.
  - unfold rectangular in *. simpl. apply Forall_forall.
    intros r Hr. apply in_map_iff in Hr. destruct Hr as [[r0 v] [<- Hin]].
    simpl. rewrite !length_app. simpl.
    apply in_combine_l in Hin.
    rewrite Forall_forall in RECT. now rewrite (RECT r0 Hin).
Qed.

Lemma add_column_wf (name : string) (values : list string)
  (self : Spreadsheet) :
  wf (df self) -> wf (df (fst (add_column name values self))).
Proof.
  intros W. unfold add_column, Pandas.setitem.
  destruct (negb (Pandas.empty (df self)) && _); [assumption|].
  destruct (length values =? _)%nat; simpl.
  - apply set_column_wf. now apply ensure_valid_index_wf.
  - now apply ensure_valid_index_wf.
Qed.

(** Every sheet the program builds is well formed. *)
Lemma built_wf (self : Spreadsheet) : built self -> wf (df self).
Proof.
  induction 1 as [|values self _ IH|name values self _ IH].
  - split; [constructor|constructor].
  - now apply add_row_wf.
  - now apply add_column_wf.
Qed.

Lemma built_one_column : built one_column.
Proof. exact (built_add_column "a" ["1"; "2"] (__init__ None) built_new). Qed.

Lemma built_numbers_sheet : built numbers_sheet.
Proof.
  exact (built_add_column "n" ["1"; "2"; "x"; "4"] (__init__ None) built_new).
Qed.

Lemma built_columnless : built columnless.
Proof. exact (built_add_row [] (__init__ None) built_new). Qed.

(** After the column is written, each row holds the new value under the
    name and what it held before under every other label. *)
Lemma set_column_cell_same (name : Label) (vals : list Cell) (d : DataFrame)
  (i : nat) (v : Cell) :
  wf d -> length vals = Pandas.len d ->
  nth_error vals i = Some v ->
  cell (Pandas.set_column name vals d) i name = Some v.
Proof.
  intros [ND RECT] L Hv.
  assert (Hi : (i < length (data d))%nat).
  { unfold Pandas.len in L. rewrite <- L. apply nth_error_Some. congruence. }
  destruct (nth_error (data d) i) as [r|] eqn:Hr;
    [|apply nth_error_None in Hr; lia].
  assert (HL : length r = length (columns d)).
  { unfold rectangular in RECT. rewrite Forall_forall in RECT.
    apply RECT. eapply nth_error_In; eassumption. }
  unfold cell, Pandas.set_column.
  destruct (Pandas.contains name d) eqn:C; simpl;
    rewrite nth_error_map, nth_error_combine, Hr, Hv; simpl.
  - apply row_get_overwrite_same; [now apply contains_In | assumption].
  - apply row_get_app_new; [|assumption].
    intros H. apply contains_In in H. congruence.
Qed.

Lemma set_column_cell_other (name other : Label) (vals : list Cell)
  (d : DataFrame) (i : nat) :
  wf d -> length vals = Pandas.len d ->
  other <> name ->
  cell (Pandas.set_column name vals d) i other = cell d i other.
Proof.
  intros [ND RECT] L N.
  unfold cell, Pandas.set_column.
  destruct (Pandas.contains name d) eqn:C; simpl;
    rewrite nth_error_map, nth_error_combine;
    destruct (nth_error (data d) i) as [r|] eqn:Hr; try reflexivity;
    (destruct (nth_error vals i) as [v|] eqn:Hv;
     [| apply nth_error_None in Hv;
        assert (i < length (data d))%nat
          by (apply nth_error_Some; congruence);
        unfold Pandas.len in L; lia]); simpl.
  - now apply row_get_overwrite_other.
  - apply row_get_app_other; [assumption|].
    unfold rectangular in RECT. rewrite Forall_forall in RECT.
    apply RECT. eapply nth_error_In; eassumption.
Qed.

Lemma add_column_mismatch (name : string) (values : list string)
  (self : Spreadsheet) :
  Pandas.empty (df self) = false ->
  length values <> Pandas.len (df self) ->
  add_column name values self =
  (self, Returns (ErrExpected (Pandas.len (df self)) (length values))).
Proof.
  intros E N. unfold add_column. rewrite E.
  apply Nat.eqb_neq in N. now rewrite N.
Qed.

Lemma add_column_write (name : string) (values : list string)
  (self : Spreadsheet) :
  Pandas.empty (df self) = false ->
  length values = Pandas.len (df self) ->
  add_column name values self =
  (mkSheet (Pandas.set_column (LStr name) (map CStr values) (df self)),
   Returns (ColumnAdded name)).
Proof.
  intros E L. unfold add_column, Pandas.setitem. rewrite E.
  assert (V : Pandas.ensure_valid_index (length values) (df self) = df self).
  { unfold Pandas.ensure_valid_index.
    apply empty_false in E. destruct E as [_ E].
    unfold Pandas.len. destruct (data (df self)); [congruence|reflexivity]. }
  rewrite V. apply Nat.eqb_eq in L. now rewrite L.
Qed.

(** C5. On a table that is not empty, with [r] rows: a column of [r]
    values is accepted.  A new name adds one column, at the end; a name
    the table already has keeps the columns as they are and overwrites
    that column, without any error.  Either way every row now holds its
    value under the name, and what it held under every other label.  A
    column of any other length is refused with a shape mismatch and the
    sheet is left as it was. *)
Theorem add_column_on_nonempty_table (name : string) (values : list string)
  (self : Spreadsheet) :
  wf (df self) ->
  Pandas.empty (df self) = false ->
  (length values = Pandas.len (df self) ->
     snd (add_column name values self) = Returns (ColumnAdded name)
     /\ (Pandas.contains (LStr name) (df self) = false ->
           columns (df (fst (add_column name values self)))
           = columns (df self) ++ [LStr name]
           /\ Pandas.ncols (df (fst (add_column name values self)))
              = S (Pandas.ncols (df self)))
     /\ (Pandas.contains (LStr name) (df self) = true ->
           columns (df (fst (add_column name values self)))
           = columns (df self)
           /\ Pandas.ncols (df (fst (add_column name values self)))
              = Pandas.ncols (df self))
     /\ Pandas.len (df (fst (add_column name values self)))
        = Pandas.len (df self)
     /\ (forall i v,
           nth_error values i = Some v ->
           cell (df (fst (add_column name values self))) i (LStr name)
           = Some (CStr v))
     /\ (forall i other,
           other <> LStr name ->
           cell (df (fst (add_column name values self))) i other
           = cell (df self) i other)
     /\ wf (df (fst (add_column name values self))))
  /\ (length values <> Pandas.len (df self) ->
        fst (add_column name values self) = self
        /\ exists r, snd (add_column name values self) = Returns r
                     /\ failure_kind r = Some ShapeMismatch).
Proof.
  intros W E. split.
  - intros L. rewrite (add_column_write name values self E L). simpl.
    assert (L' : length (map CStr values) = Pandas.len (df self))
      by now rewrite length_map.
    split; [reflexivity|].
    split; [intros C; unfold Pandas.set_column, Pandas.ncols; rewrite C;
            simpl; rewrite length_app; simpl; split; [reflexivity | lia]|].
    split; [intros C; unfold Pandas.set_column, Pandas.ncols; rewrite C;
            split; reflexivity|].
    split; [now apply set_column_len|].
    split; [|split].
    + intros i v Hv. apply set_column_cell_same; try assumption.
      now rewrite nth_error_map, Hv.
    + intros i other N. now apply set_column_cell_other.
    + apply set_column_wf; assumption.
  - intros N. rewrite (add_column_mismatch name values self E N). simpl.
    split; [reflexivity|]. eexists. split; reflexivity.
Qed.

Lemma add_column_on_nonempty_table_witness :
  cell (df (fst (add_column "b" ["x"; "y"] one_column))) 1 (LStr "b")
  = Some (CStr "y")
  /\ cell (df (fst (add_column "a" ["x"; "y"] one_column))) 0 (LStr "a")
     = Some (CStr "x")
  /\ fst (add_column "b" ["x"] one_column) = one_column.
Proof.
  destruct (add_column_on_nonempty_table "b" ["x"; "y"] one_column
              wf_one_column eq_refl) as [A _].
  destruct (add_column_on_nonempty_table "a" ["x"; "y"] one_column
              wf_one_column eq_refl) as [B _].
  destruct (add_column_on_nonempty_table "b" ["x"] one_column
              wf_one_column eq_refl) as [_ C].
  destruct (A eq_refl) as (_ & _ & _ & _ & A' & _).
  destruct (B eq_refl) as (_ & _ & _ & _ & B' & _).
  assert (N : length ["x"] <> Pandas.len (df one_column))
    by (simpl; discriminate).
  split; [|split].
  - apply (A' 1%nat "y"). reflexivity.
  - apply (B' 0%nat "x"). reflexivity.
  - exact (proj1 (C N)).
Defined.

(** ** Aggregates *)

Lemma numeral_char_known (c : ascii) :
  numeral_char c = true ->
  occurs c NUMBER_CHARS = true /\ is_upper c || is_lower c = false.
Proof.
  destruct c as [[] [] [] [] [] [] [] []]; intros H;
    try discriminate H; split; reflexivity.
Qed.

Lemma safe_text_not_numeral (s : string) :
  safe_text s = true -> all_numeral s = false.
Proof.
  unfold safe_text. intros H.
  apply andb_prop in H. destruct H as [H _].
  apply andb_prop in H. destruct H as [_ H].
  apply orb_prop in H. destruct H as [H|H].
  - destruct s as [|c r]; [discriminate|]. simpl in *.
    destruct (numeral_char c) eqn:N; [|reflexivity].
    apply numeral_char_known in N. destruct N as [_ N]. congruence.
  - induction s as [|c r IH]; [discriminate|].
    cbn [has_foreign] in H. cbn [all_numeral].
    destruct (numeral_char c) eqn:N; [|reflexivity].
    apply numeral_char_known in N. destruct N as [N _].
    rewrite N in H. simpl in H. now apply IH.
Qed.

Lemma uint_of_char_digit (a : ascii) (d : option Decimal.uint)
  (d' : Decimal.uint) :
  uint_of_char a d = Some d' ->
  numeral_char a = true /\ exists d0, d = Some d0.
Proof.
  destruct d as [d0|]; [|destruct a as [[] [] [] [] [] [] [] []]; discriminate].
  destruct a as [[] [] [] [] [] [] [] []]; intros H; try discriminate H;
    (split; [reflexivity | now exists d0]).
Qed.

Lemma uint_numeral (s : string) (d : Decimal.uint) :
  NilEmpty.uint_of_string s = Some d -> all_numeral s = true.
Proof.
  revert d. induction s as [|a s IH]; intros d H; [reflexivity|].
  simpl in H. apply uint_of_char_digit in H. destruct H as [N [d0 H]].
  simpl. rewrite N. simpl. now apply (IH d0).
Qed.

Lemma parse_int_numeral (s : string) (z : Z) :
  Pandas.parse_int s = Some z -> all_numeral s = true.
Proof.
  unfold Pandas.parse_int, NilZero.int_of_string. intros H.
  destruct s as [|a s]; [discriminate|].
  destruct (Ascii.eqb a "-") eqn:E.
  - apply Ascii.eqb_eq in E. subst a.
    unfold NilZero.uint_of_string in H.
    destruct s as [|b s]; [discriminate|].
    destruct (NilEmpty.uint_of_string (String b s)) as [d|] eqn:U;
      [|discriminate].
    change (all_numeral (String b s) = true). now apply (uint_numeral _ d).
  - unfold NilZero.uint_of_string in H.
    destruct (NilEmpty.uint_of_string (String a s)) as [d|] eqn:U;
      [|discriminate].
    now apply (uint_numeral _ d).
Qed.

Lemma all_digits_numeral (s : string) :
  Pandas.all_digits s = true -> all_numeral s = true.
Proof.
  induction s as [|c r IH]; [reflexivity|]. simpl. intros H.
  apply andb_prop in H. destruct H as [D R].
  unfold numeral_char. rewrite D. simpl. now apply IH.
Qed.

Lemma split_dot_numeral (s : string) :
  forall ip o,
    Pandas.split_dot s = (ip, o) ->
    Pandas.all_digits ip = true ->
    match o with Some fp => Pandas.all_digits fp = true | None => True end ->
    all_numeral s = true.
Proof.
  induction s as [|c r IH]; intros ip o H I F; [reflexivity|].
  simpl in H. destruct (Ascii.eqb c ".") eqn:E.
  - apply Ascii.eqb_eq in E. subst c. injection H as <- <-.
    simpl. now apply all_digits_numeral.
  - destruct (Pandas.split_dot r) as [a b]. injection H as <- <-.
    simpl in I. apply andb_prop in I. destruct I as [D I].
    simpl. unfold numeral_char. rewrite D. simpl. now apply (IH a b).
Qed.

Lemma unsigned_number_numeral (s : string) (q : Q) :
  Pandas.unsigned_number s = Some q -> all_numeral s = true.
Proof.
  unfold Pandas.unsigned_number.
  destruct (Pandas.split_dot s) as [ip [fp|]] eqn:E.
  - destruct (Pandas.all_digits ip && Pandas.all_digits fp
              && (Pandas.nonempty ip || Pandas.nonempty fp)) eqn:C;
      [|discriminate].
    intros _. apply andb_prop in C. destruct C as [C _].
    apply andb_prop in C. destruct C as [I F].
    now apply (split_dot_numeral s ip (Some fp)).
  - destruct (Pandas.nonempty ip && Pandas.all_digits ip) eqn:C;
      [|discriminate].
    intros _. apply andb_prop in C. destruct C as [_ I].
    now apply (split_dot_numeral s ip None).
Qed.

Lemma parse_number_signs (c : ascii) (r : string) :
  Pandas.parse_number (String c r)
  = if Ascii.eqb c "-" then option_map Qopp (Pandas.unsigned_number r)
    else if Ascii.eqb c "+" then Pandas.unsigned_number r
         else Pandas.unsigned_number (String c r).
Proof. destruct c as [[] [] [] [] [] [] [] []]; reflexivity. Qed.

Lemma parse_number_numeral (s : string) (q : Q) :
  Pandas.parse_number s = Some q -> all_numeral s = true.
Proof.
  destruct s as [|c r]; [discriminate|].
  rewrite parse_number_signs.
  destruct (Ascii.eqb c "-") eqn:M.
  - apply Ascii.eqb_eq in M. subst c.
    destruct (Pandas.unsigned_number r) as [q'|] eqn:U; [|discriminate].
    intros _. simpl. now apply (unsigned_number_numeral r q').
  - destruct (Ascii.eqb c "+") eqn:P.
    + apply Ascii.eqb_eq in P. subst c.
      intros U. simpl. now apply (unsigned_number_numeral r q).
    + apply unsigned_number_numeral.
Qed.

(** Text that is plainly no number is read as no integer and coerced to
    [nan]; so is a missing cell. *)
Lemma certainly_text_nan (c : Cell) :
  certainly_text c = true ->
  Pandas.integer_of_cell c = None /\ Pandas.to_numeric_cell c = nan.
Proof.
  destruct c as [s|z|]; simpl; intros H; [|discriminate|now split].
  assert (N : Pandas.parse_int s = None /\ Pandas.parse_number s = None).
  { apply orb_prop in H. destruct H as [H|H].
    - apply safe_text_not_numeral in H. split.
      + destruct (Pandas.parse_int s) as [z|] eqn:E; [|reflexivity].
        apply parse_int_numeral in E. congruence.
      + destruct (Pandas.parse_number s) as [q|] eqn:E; [|reflexivity].
        apply parse_number_numeral in E. congruence.
    - destruct s; [split; reflexivity | discriminate]. }
  destruct N as [I P]. unfold Pandas.to_numeric_cell. simpl.
  now rewrite I, P.
Qed.

Lemma to_numeric_returns (cells : list Cell) :
  exists s, Pandas.to_numeric cells = Ok s.
Proof.
  unfold Pandas.to_numeric. destruct (Pandas.all_int64 cells); eauto.
Qed.

Lemma integer_cell_number (c : Cell) (z : Z) :
  Pandas.integer_of_cell c = Some z ->
  Pandas.to_numeric_cell c = Finite (inject_Z z).
Proof. intros H. unfold Pandas.to_numeric_cell. now rewrite H. Qed.

Lemma all_int64_integers (cells : list Cell) (zs : list Z) :
  Pandas.all_int64 cells = Some zs -> integers cells = zs.
Proof.
  revert zs. induction cells as [|c cells IH]; intros zs H; simpl in *.
  - now injection H as <-.
  - destruct (Pandas.integer_of_cell c) as [z|]; [|discriminate].
    destruct (Pandas.all_int64 cells) as [zs'|]; [|discriminate].
    destruct (Pandas.in_int64_range z); [|discriminate].
    injection H as <-. now rewrite (IH zs').
Qed.

Lemma inject_Z_plus (a b : Z) : inject_Z a + inject_Z b = inject_Z (a + b).
Proof. unfold Qplus, inject_Z. simpl. f_equal. lia. Qed.

(** With every cell an integer or plainly text, the float64 total is the
    sum of the integers. *)
Lemma total_clear (cells : list Cell) :
  forallb clear_cell cells = true ->
  Pandas.total (map Pandas.to_numeric_cell cells)
  = inject_Z (sum_Z (integers cells)).
Proof.
  induction cells as [|c cells IH]; [reflexivity|]. simpl. intros H.
  apply andb_prop in H. destruct H as [C H]. unfold clear_cell in C.
  destruct (Pandas.integer_of_cell c) as [z|] eqn:E.
  - rewrite (integer_cell_number c z E), (IH H). simpl.
    apply inject_Z_plus.
  - destruct (certainly_text_nan c C) as [_ ->]. now apply IH.
Qed.

Lemma count_clear (cells : list Cell) :
  forallb clear_cell cells = true ->
  Pandas.count (map Pandas.to_numeric_cell cells) = length (integers cells).
Proof.
  induction cells as [|c cells IH]; [reflexivity|]. simpl. intros H.
  apply andb_prop in H. destruct H as [C H]. unfold clear_cell in C.
  destruct (Pandas.integer_of_cell c) as [z|] eqn:E.
  - rewrite (integer_cell_number c z E). simpl. now rewrite (IH H).
  - destruct (certainly_text_nan c C) as [_ ->]. now apply IH.
Qed.

Lemma sum_Z_bound (zs : list Z) : (Z.abs (sum_Z zs) <= sum_abs zs)%Z.
Proof. induction zs as [|z zs IH]; simpl; lia. Qed.

Lemma EXACT_value : EXACT = 9007199254740992%Z.
Proof. reflexivity. Qed.

Lemma wrap64_small (z : Z) :
  (Z.abs z <= EXACT)%Z -> Pandas.wrap64 z = z.
Proof.
  intros H. rewrite EXACT_value in H. unfold Pandas.wrap64.
  change Pandas.int64_min with (-9223372036854775808)%Z.
  change (2 ^ 64)%Z with 18446744073709551616%Z.
  rewrite Z.mod_small; lia.
Qed.

(** The total of a tame column, however pandas holds it. *)
Lemma sum_tame (cells : list Cell) :
  tame cells = true ->
  Pandas.to_numeric cells = Ok (Pandas.Int64 (integers cells))
  \/ Pandas.to_numeric cells
     = Ok (Pandas.Float64 (map Pandas.to_numeric_cell cells)).
Proof.
  intros _. unfold Pandas.to_numeric.
  destruct (Pandas.all_int64 cells) as [zs|] eqn:E; [left|now right].
  now rewrite (all_int64_integers cells zs E).
Qed.

Lemma sum_of_tame (cells : list Cell) (s : Pandas.Series) :
  tame cells = true ->
  Pandas.to_numeric cells = Ok s ->
  Pandas.sum s = inject_Z (sum_Z (integers cells)).
Proof.
  intros T R. pose proof T as T'. unfold tame in T'.
  apply andb_prop in T'. destruct T' as [C B]. apply Z.leb_le in B.
  destruct (sum_tame cells T) as [E|E]; rewrite E in R; injection R as <-.
  - simpl. fold (sum_Z (integers cells)). rewrite wrap64_small; [reflexivity|].
    pose proof (sum_Z_bound (integers cells)). lia.
  - simpl. now apply total_clear.
Qed.

Lemma all_text_integers (cells : list Cell) :
  forallb certainly_text cells = true ->
  integers cells = [] /\ tame cells = true.
Proof.
  intros H.
  assert (I : integers cells = [] /\ forallb clear_cell cells = true).
  { induction cells as [|c cells IH]; [now split|]. simpl in *.
    apply andb_prop in H. destruct H as [C H].
    destruct (certainly_text_nan c C) as [E _].
    unfold clear_cell. rewrite E, C. simpl. now apply IH. }
  destruct I as [I C]. split; [assumption|].
  unfold tame. now rewrite C, I.
Qed.

Lemma index_of_contains (name : Label) (cols : list Label) :
  existsb (label_eqb name) cols = true ->
  exists j, Pandas.index_of name cols = Some j.
Proof.
  induction cols as [|l cols IH]; simpl; [discriminate|].
  intros H. destruct (label_eqb l name) eqn:E; [now exists 0%nat|].
  assert (E' : label_eqb name l = false).
  { apply label_eqb_neq. apply label_eqb_neq in E. congruence. }
  rewrite E' in H. simpl in H. destruct (IH H) as [j ->]. now exists (S j).
Qed.

Lemma row_get_index_of (cols : list Label) (r : list Cell) (name : Label)
  (j : nat) :
  Pandas.index_of name cols = Some j ->
  length r = length cols ->
  row_get cols r name = Some (nth j r CNaN).
Proof.
  revert r j. induction cols as [|l cols IH]; intros r j H L; [discriminate|].
  destruct r as [|c r]; [discriminate|]. simpl in *.
  destruct (label_eqb l name).
  - now injection H as <-.
  - destruct (Pandas.index_of name cols) as [j'|] eqn:E; [|discriminate].
    injection H as <-. apply IH; [reflexivity | lia].
Qed.

(** [df[col]] lists, row after row, the cell each row holds under [col]. *)
Lemma getitem_cells (name : Label) (d : DataFrame) :
  rectangular d ->
  Pandas.contains name d = true ->
  map Some (Pandas.getitem name d)
  = map (fun r => row_get (columns d) r name) (data d).
Proof.
  intros RECT C. unfold Pandas.getitem.
  destruct (index_of_contains _ _ C) as [j Hj]. rewrite Hj.
  rewrite map_map. apply map_ext_in. intros r Hr.
  symmetry. apply row_get_index_of; [assumption|].
  unfold rectangular in RECT. rewrite Forall_forall in RECT. now apply RECT.
Qed.

Lemma getitem_nth (name : Label) (d : DataFrame) (i : nat) :
  rectangular d ->
  Pandas.contains name d = true ->
  nth_error (Pandas.getitem name d) i = cell d i name.
Proof.
  intros RECT C.
  pose proof (getitem_cells name d RECT C) as H.
  apply (f_equal (fun l => nth_error l i)) in H.
  rewrite !nth_error_map in H. unfold cell.
  destruct (nth_error (Pandas.getitem name d) i),
           (nth_error (data d) i); simpl in H; congruence.
Qed.

Lemma mean_all_text (cells : list Cell) (s : Pandas.Series) :
  forallb certainly_text cells = true ->
  Pandas.to_numeric cells = Ok s ->
  Pandas.mean s = nan.
Proof.
  intros A R. destruct (all_text_integers cells A) as [I T].
  pose proof T as T'. unfold tame in T'. apply andb_prop in T'.
  destruct T' as [C _].
  destruct (sum_tame cells T) as [E|E]; rewrite E in R; injection R as <-.
  - now rewrite I.
  - simpl. now rewrite (count_clear cells C), I.
Qed.

Lemma sum_column_of_tame (col : string) (self : Spreadsheet) :
  Pandas.contains (LStr col) (df self) = true ->
  tame (Pandas.getitem (LStr col) (df self)) = true ->
  sum_column col self
  = Returns (SumOf col
               (inject_Z
                  (sum_Z (integers (Pandas.getitem (LStr col) (df self)))))).
Proof.
  intros C T. unfold sum_column. rewrite C. simpl.
  destruct (to_numeric_returns (Pandas.getitem (LStr col) (df self)))
    as [s R].
  now rewrite R, (sum_of_tame _ s T R).
Qed.


(** C6, as the code has it.  [sum_column] reports a missing column when
    [col] is not a column.  Otherwise the cells that are plainly no
    number are left out without any error, and where the other cells are
    integers whose absolute values add up to at most 2^53 the total is
    their sum: 7 for the cells "1", "2", "x", "4", and exactly zero when no
    cell is a number. *)
Theorem sum_column_total (col : string) (self : Spreadsheet) :
  (Pandas.contains (LStr col) (df self) = false ->
     sum_column col self = Returns (ErrNoColumn col)
     /\ failure_kind (ErrNoColumn col) = Some ColumnNotFound)
  /\ (Pandas.contains (LStr col) (df self) = true ->
        (tame (Pandas.getitem (LStr col) (df self)) = true ->
         sum_column col self
         = Returns (SumOf col
                      (inject_Z
                         (sum_Z (integers
                                   (Pandas.getitem (LStr col) (df self))))))
         /\ fails (sum_column col self) = false)
        /\ (forallb certainly_text (Pandas.getitem (LStr col) (df self))
            = true ->
            sum_column col self = Returns (SumOf col 0))
        /\ (Pandas.getitem (LStr col) (df self)
            = [CStr "1"; CStr "2"; CStr "x"; CStr "4"] ->
            sum_column col self = Returns (SumOf col 7))
        /\ (rectangular (df self) ->
            forall i, nth_error (Pandas.getitem (LStr col) (df self)) i
                      = cell (df self) i (LStr col))).
Proof.
  split.
  - intros C. unfold sum_column. rewrite C. split; reflexivity.
  - intros C.
    pose proof (sum_column_of_tame col self C) as T.
    split; [intros T'; rewrite (T T'); now split|].
    split.
    { intros A. destruct (all_text_integers _ A) as [I T'].
      rewrite (T T'), I. reflexivity. }
    split.
    { intros E. rewrite T; rewrite E; reflexivity. }
    intros RECT i. now apply getitem_nth.
Qed.

Lemma sum_column_total_witness :
  sum_column "n" numbers_sheet = Returns (SumOf "n" 7)
  /\ sum_column "w" words_sheet = Returns (SumOf "w" 0)
  /\ sum_column "qty" gaps_sheet = Returns (SumOf "qty" 9)
  /\ sum_column "m" numbers_sheet = Returns (ErrNoColumn "m").
Proof.
  destruct (sum_column_total "n" numbers_sheet) as [_ A].
  destruct (sum_column_total "w" words_sheet) as [_ B].
  destruct (sum_column_total "qty" gaps_sheet) as [_ D].
  destruct (sum_column_total "m" numbers_sheet) as [C _].
  destruct (A eq_refl) as (_ & _ & A' & _).
  destruct (B eq_refl) as (_ & B' & _).
  destruct (D eq_refl) as (D' & _).
  split; [|split; [|split]].
  - apply A'. reflexivity.
  - apply B'. reflexivity.
  - exact (proj1 (D' eq_refl)).
  - exact (proj1 (C eq_refl)).
Defined.

(** C6, as the specification states it, fails: the total is not the sum
    on every column.  A column of integers is summed as int64, and the
    total wraps around.
    On the cells "9223372036854775807" and "1", entered by [add_column] in
    a new store, the total reported is -9223372036854775808, which is not
    the sum of the two numbers. *)
Lemma sum_column_wraps_around :
  Pandas.getitem (LStr "n") (df large_numbers)
  = [CStr "9223372036854775807"; CStr "1"]
  /\ map Pandas.to_numeric_cell (Pandas.getitem (LStr "n") (df large_numbers))
     = [Finite (inject_Z 9223372036854775807); Finite (inject_Z 1)]
  /\ sum_column "n" large_numbers
     = Returns (SumOf "n" (inject_Z (-9223372036854775808)))
  /\ ~ inject_Z (-9223372036854775808)
       == inject_Z 9223372036854775807 + inject_Z 1.
Proof.
  split; [reflexivity|]. split; [reflexivity|]. split; [reflexivity|].
  intros H. vm_compute in H. discriminate H.
Qed.

(** C7. When every cell of the column is plainly no number -- missing,
    empty, or text that is no number -- [average_column] returns normally
    and reports the average as [nan], the undefined value: it reports no
    failure, lets no exception out, and [nan] is not the number zero (nor
    any number). *)
Theorem average_column_all_missing (col : string) (self : Spreadsheet) :
  Pandas.contains (LStr col) (df self) = true ->
  forallb certainly_text (Pandas.getitem (LStr col) (df self)) = true ->
  average_column col self = Returns (AverageOf col nan)
  /\ fails (average_column col self) = false
  /\ (forall e, average_column col self <> Propagates e)
  /\ (forall q, average_column col self <> Returns (AverageOf col (Finite q)))
  /\ nan <> Finite 0.
Proof.
  intros C A.
  assert (R : average_column col self = Returns (AverageOf col nan)).
  { unfold average_column. rewrite C. simpl.
    destruct (Pandas.to_numeric (Pandas.getitem (LStr col) (df self)))
      as [s|e] eqn:R.
    - now rewrite (mean_all_text _ s A R).
    - unfold Pandas.to_numeric in R.
      destruct (Pandas.all_int64 _); discriminate. }
  rewrite R. repeat split; try discriminate.
Qed.

Lemma average_column_all_missing_witness :
  average_column "w" words_sheet = Returns (AverageOf "w" nan).
Proof.
  refine (proj1 (average_column_all_missing "w" words_sheet eq_refl _)).
  reflexivity.
Defined.

(** ** Filtering *)

Lemma mask_filter {A} (f : A -> bool) (l : list A) :
  map snd (filter (fun br => fst br) (combine (map f l) l)) = filter f l.
Proof.
  induction l as [|a l IH]; [reflexivity|].
  simpl. destruct (f a); simpl; now rewrite IH.
Qed.

Lemma filtered_rows (col value : string) (d : DataFrame) :
  rectangular d ->
  Pandas.contains (LStr col) d = true ->
  Pandas.boolean_index
    (map (fun c => String.eqb (Pandas.astype_str c) value)
         (Pandas.getitem (LStr col) d)) d
  = mkDF (columns d) (matching_rows col value d).
Proof.
  intros RECT C. unfold Pandas.boolean_index, matching_rows. f_equal.
  unfold Pandas.getitem.
  destruct (index_of_contains _ _ C) as [j Hj]. rewrite Hj.
  rewrite map_map, mask_filter.
  apply filter_ext_in. intros r Hr. unfold row_matches.
  rewrite (row_get_index_of _ r _ j Hj); [reflexivity|].
  unfold rectangular in RECT. rewrite Forall_forall in RECT. now apply RECT.
Qed.

(** C8, as the code has it.  [filter_rows] keeps, in their order,
    exactly the rows whose cell under the column reads, as a string,
    character for character as the value -- letter case counts and "3" is
    not "3.0" -- the value being other than "nan" or the column without
    missing cells.  On the three rows "active", "Active", "active" the
    value "active" selects the first and the third.  When no row is
    selected the report is "no rows found", whether the table has rows or
    not, and it is no failure. *)
Theorem filter_rows_exact (col value : string) (self : Spreadsheet) :
  rectangular (df self) ->
  Pandas.contains (LStr col) (df self) = true ->
  (value = "nan" -> ~ In CNaN (Pandas.getitem (LStr col) (df self))) ->
  (matching_rows col value (df self) <> [] ->
     filter_rows col value self
     = Returns (Table (mkDF (columns (df self))
                            (matching_rows col value (df self)))))
  /\ (matching_rows col value (df self) = [] ->
        filter_rows col value self = Returns (NoRowsFound col value)
        /\ fails (filter_rows col value self) = false)
  /\ (forall r, In r (matching_rows col value (df self)) <->
                In r (data (df self))
                /\ exists c, row_get (columns (df self)) r (LStr col) = Some c
                             /\ c <> CNaN
                             /\ Pandas.astype_str c = value)
  /\ filter_rows "status" "active" status_sheet
     = Returns (Table (mkDF [LStr "status"] [[CStr "active"]; [CStr "active"]]))
  /\ filter_rows "status" "active" tagged_sheet
     = Returns (Table (mkDF [LStr "id"; LStr "status"]
                            [[CInt 1; CStr "active"]; [CInt 3; CStr "active"]]))
  /\ filter_rows "id" "3" tagged_sheet
     = Returns (Table (mkDF [LStr "id"; LStr "status"]
                            [[CInt 3; CStr "active"]]))
  /\ filter_rows "status" "3" tagged_sheet = Returns (NoRowsFound "status" "3").
Proof.
  intros RECT C NAN.
  assert (F : forall rows,
             matching_rows col value (df self) = rows ->
             filter_rows col value self
             = if Pandas.empty (mkDF (columns (df self)) rows)
               then Returns (NoRowsFound col value)
               else Returns (Table (mkDF (columns (df self)) rows))).
  { intros rows <-. unfold filter_rows. rewrite C. simpl.
    now rewrite (filtered_rows col value (df self) RECT C). }
  assert (NE : columns (df self) <> []).
  { apply contains_In in C. intros E. now rewrite E in C. }
  split; [|split; [|split]].
  - intros M. rewrite (F _ eq_refl).
    unfold Pandas.empty, Pandas.ncols, Pandas.len. simpl.
    destruct (columns (df self)); [congruence|].
    destruct (matching_rows col value (df self)); [congruence|reflexivity].
  - intros M. rewrite (F _ eq_refl), M.
    unfold Pandas.empty, Pandas.len. simpl. rewrite orb_true_r.
    split; reflexivity.
  - intros r. unfold matching_rows. rewrite filter_In. unfold row_matches.
    split.
    + intros [Hin Hm]. split; [assumption|].
      destruct (row_get (columns (df self)) r (LStr col)) as [c|] eqn:G;
        [|discriminate].
      apply String.eqb_eq in Hm.
      exists c. split; [reflexivity|]. split; [|assumption].
      intros ->. simpl in Hm. apply NAN; [now symmetry|].
      assert (X : In (Some CNaN)
                     (map Some (Pandas.getitem (LStr col) (df self)))).
      { rewrite (getitem_cells _ _ RECT C). apply in_map_iff.
        exists r. now split. }
      apply in_map_iff in X. destruct X as [c' [Ec X]].
      now injection Ec as ->.
    + intros [Hin [c [Hc [_ Hv]]]]. split; [assumption|].
      rewrite Hc. now apply String.eqb_eq.
  - repeat split.
Qed.

Lemma filter_rows_exact_witness :
  filter_rows "status" "Active" tagged_sheet
  = Returns (Table (mkDF [LStr "id"; LStr "status"]
                         [[CInt 2; CStr "Active"]]))
  /\ filter_rows "status" "ACTIVE" tagged_sheet
     = Returns (NoRowsFound "status" "ACTIVE").
Proof.
  assert (R : rectangular (df tagged_sheet)) by (repeat constructor).
  destruct (filter_rows_exact "status" "Active" tagged_sheet R eq_refl)
    as [A _]; [discriminate|].
  destruct (filter_rows_exact "status" "ACTIVE" tagged_sheet R eq_refl)
    as (_ & B & _); [discriminate|].
  split.
  - apply A. simpl. discriminate.
  - apply B. reflexivity.
Defined.

(** C8, as the specification states it, fails: the "no matches" status
    is not distinct from the table being empty, as [filter_rows] does not
    look at whether the table is empty.  On a table with the column and no row --
    empty, as [view] reports it -- the report is the same "no rows found"
    as on a table with rows none of which matches. *)
Lemma filter_rows_on_empty_table :
  Pandas.empty (df header_only) = true
  /\ view 5 header_only = Returns SheetEmpty
  /\ filter_rows "name" "x" header_only = Returns (NoRowsFound "name" "x")
  /\ Pandas.empty (df status_sheet) = false
  /\ filter_rows "status" "x" status_sheet
     = Returns (NoRowsFound "status" "x").
Proof. repeat split. Qed.

(** ** Exceptions that leave a call *)

(** Only [add_column] can let an exception out, and only on a table that
    has rows but no column, with a list whose length is not the number of
    rows: that table counts as empty, so the guard of the method is
    skipped, and the length check inside [df[name] = values] raises. *)
Lemma propagates_only_from_add_column (op : Op) (w : World) (e : Exn) :
  snd (run op w) = Propagates e ->
  exists name values,
    op = AddColumn name values
    /\ columns (df (sheet w)) = []
    /\ data (df (sheet w)) <> []
    /\ length values <> Pandas.len (df (sheet w))
    /\ e = ValueError.
Proof.
  destruct op; simpl.
  - unfold load_csv.
    destruct (Pandas.read_csv path (disk w)) as [d|[]]; discriminate.
  - unfold save_csv.
    destruct (Pandas.to_csv path (df (sheet w)) (disk w)) as [fs [x|]];
      discriminate.
  - unfold view. destruct (Pandas.empty _); discriminate.
  - unfold add_row, Pandas.loc_setitem_new.
    destruct (Pandas.empty (df (sheet w))); simpl; [discriminate|].
    destruct (length values =? _)%nat; discriminate.
  - intros H. exists name, values.
    destruct (Pandas.empty (df (sheet w))) eqn:E.
    + unfold add_column in H. rewrite E in H. simpl in H.
      destruct (Pandas.setitem name values (df (sheet w)))
        as [d [x|]] eqn:S; simpl in H; [|discriminate].
      injection H as ->.
      unfold Pandas.setitem in S.
      destruct (length values =? _)%nat eqn:L; [discriminate|].
      injection S as _ <-.
      rewrite ensure_valid_index_len in L.
      unfold Pandas.empty, Pandas.ncols, Pandas.len in *.
      destruct (data (df (sheet w))) as [|r rows] eqn:D; simpl in *.
      * destruct (length values) eqn:V; simpl in L.
        -- discriminate.
        -- now rewrite Nat.eqb_refl in L.
      * rewrite orb_false_r in E. apply Nat.eqb_eq in E.
        apply Nat.eqb_neq in L.
        repeat split; try congruence.
        now apply length_zero_iff_nil.
    + destruct (Nat.eq_dec (length values) (Pandas.len (df (sheet w))))
        as [L|L].
      * rewrite (add_column_write _ _ _ E L) in H. discriminate.
      * rewrite (add_column_mismatch _ _ _ E L) in H. discriminate.
  - unfold sum_column. destruct (negb _); [discriminate|].
    destruct (Pandas.to_numeric _); discriminate.
  - unfold average_column. destruct (negb _); [discriminate|].
    destruct (Pandas.to_numeric _); discriminate.
  - unfold filter_rows. destruct (negb _); [discriminate|].
    destruct (Pandas.empty _); discriminate.
  - unfold plot. destruct (_ || _); [discriminate|].
    destruct (to_numeric_returns (Pandas.getitem (LStr x_col) (df (sheet w))))
      as [x ->].
    destruct (to_numeric_returns (Pandas.getitem (LStr y_col) (df (sheet w))))
      as [y ->].
    destruct (figure (pyplot w)); [discriminate|].
    destruct (chart_kind kind); [|discriminate].
    destruct (draw (pyplot w) _); discriminate.
Qed.

(** C9. The rule that every failure is recovered inside the call does
    not hold at [add_column]: after [add_row []] on a new store the table
    has one row and no column, and on that table
    [add_column "a" ["1"; "2"]] (as with any list whose length is not 1)
    ends with a [ValueError] leaving the call, with nothing reported.
    A table with columns and no rows is not such a case: there a
    non-empty column is accepted and the call returns. *)
Theorem add_column_exception_escapes :
  add_row [] (__init__ None) = (columnless, Returns RowAdded)
  /\ add_column "a" ["1"; "2"] columnless = (columnless, Propagates ValueError)
  /\ add_column "a" [] columnless = (columnless, Propagates ValueError)
  /\ (forall name values,
        length values <> 1%nat ->
        snd (add_column name values columnless) = Propagates ValueError)
  /\ add_column "a" ["1"; "2"] header_only
     = (mkSheet (mkDF [LStr "name"; LStr "age"; LStr "a"]
                      [[CNaN; CNaN; CStr "1"]; [CNaN; CNaN; CStr "2"]]),
        Returns (ColumnAdded "a")).
Proof.
  split; [reflexivity|]. split; [reflexivity|]. split; [reflexivity|].
  split; [|reflexivity].
  intros name values N. apply Nat.eqb_neq in N.
  unfold add_column, Pandas.setitem, Pandas.ensure_valid_index.
  simpl. change (Pandas.len (mkDF [] [[]])) with 1%nat. now rewrite N.
Qed.

(** ** Saving and loading back *)

(** C2, as the specification states it, fails.  A sheet holding an empty
    text cell (typed at the prompt of [add_column]) is rectangular, is
    saved without error,
    and is then loaded as a different table: the empty text is read back
    as a missing cell.  In the same way typed digits come back as
    integers, the positional column names 0, 1 of [add_row] come back as
    the texts "0", "1", and the file saved from a new, empty store cannot
    be loaded at all. *)
Lemma save_then_load_changes_table :
  rectangular (df blank_note)
  /\ save_csv "t.csv" any_disk blank_note
     = (Pandas.write "t.csv" [["name"; "note"]; ["ann"; ""]] any_disk,
        Returns (Saved "t.csv"))
  /\ save_then_load "t.csv" any_disk blank_note
     = (mkSheet (mkDF [LStr "name"; LStr "note"] [[CStr "ann"; CNaN]]),
        Returns (Loaded 1 2))
  /\ df (fst (save_then_load "t.csv" any_disk blank_note)) <> df blank_note
  /\ df (fst (save_then_load "t.csv" any_disk digits_typed))
     = mkDF [LStr "n"] [[CInt 1]; [CInt 2]]
  /\ df (fst (save_then_load "t.csv" any_disk positional))
     = mkDF [LStr "0"; LStr "1"] [[CStr "x"; CStr "y"]]
  /\ save_then_load "t.csv" any_disk (__init__ None)
     = (__init__ None, Returns ErrEmptyCSV).
Proof.
  split; [repeat constructor|].
  split; [reflexivity|].
  split; [reflexivity|].
  split; [discriminate|].
  split; [reflexivity|].
  split; reflexivity.
Qed.

Lemma to_int_proper (z : Z) :
  Z.to_int z <> Decimal.Pos Decimal.Nil
  /\ Z.to_int z <> Decimal.Neg Decimal.Nil.
Proof.
  destruct z; simpl; split; try discriminate;
    intros H; injection H as H; now apply DecimalPos.Unsigned.to_uint_nonnil in H.
Qed.

Lemma parse_int64_str (z : Z) :
  in_int64 z = true -> Pandas.parse_int64 (Pandas.str_of_Z z) = Some z.
Proof.
  intros R. unfold Pandas.parse_int64, Pandas.str_of_Z.
  destruct (to_int_proper z) as [A B].
  rewrite (NilZero.isi _ A B), DecimalZ.of_to.
  unfold in_int64 in R. now rewrite R.
Qed.

Lemma letter_is_no_digit (a : ascii) (d : option Decimal.uint) :
  is_upper a || is_lower a = true ->
  Ascii.eqb a "-" = false /\ uint_of_char a d = None.
Proof.
  destruct a as [[] [] [] [] [] [] [] []]; intros H;
    try discriminate H; (split; [reflexivity | now destruct d]).
Qed.

Lemma plain_word_no_int (s : string) :
  plain_word s = true -> Pandas.parse_int64 s = None.
Proof.
  unfold plain_word. intros P.
  apply andb_prop in P. destruct P as [P _].
  apply andb_prop in P. destruct P as [N L].
  destruct s as [|a s]; [discriminate|].
  simpl in L. apply andb_prop in L. destruct L as [L _].
  unfold Pandas.parse_int64, NilZero.int_of_string, NilZero.uint_of_string.
  simpl.
  destruct (letter_is_no_digit a (NilEmpty.uint_of_string s) L) as [-> ->].
  reflexivity.
Qed.

Lemma plain_word_not_na (s : string) :
  plain_word s = true -> Pandas.is_na s = false.
Proof.
  intros P. unfold Pandas.is_na.
  destruct (existsb (String.eqb s) Pandas.NA_VALUES) eqn:E; [|reflexivity].
  apply existsb_exists in E. destruct E as [t [Hin Heq]].
  apply String.eqb_eq in Heq. subst t. simpl in Hin.
  repeat (destruct Hin as [<-|Hin]; [vm_compute in P; discriminate|]).
  destruct Hin.
Qed.

Lemma plain_word_nonempty (s : string) :
  plain_word s = true -> Pandas.nonempty s = true.
Proof.
  unfold plain_word. intros P.
  apply andb_prop in P. destruct P as [P _].
  apply andb_prop in P. now destruct P.
Qed.

(** Names that are not empty and do not repeat are kept as they are. *)
Lemma unnamed_id (l : list string) (i : nat) :
  Forall (fun s => Pandas.nonempty s = true) l ->
  map (fun ix => Pandas.unnamed (fst ix) (snd ix)) (Pandas.enumerate i l) = l.
Proof.
  intros H. revert i. induction H as [|s l Hs _ IH]; intros i; [reflexivity|].
  simpl. rewrite IH. destruct s; [discriminate|reflexivity].
Qed.

Lemma dedup_one_fresh (fuel : nat) (counts : list (string * nat))
  (col : string) :
  Pandas.counts_get counts col = 0%nat ->
  Pandas.dedup_one fuel counts col = (counts, col).
Proof. intros H. destruct fuel; simpl; now rewrite H. Qed.

Lemma dedup_names_fresh (fuel : nat) (names : list string) :
  NoDup names ->
  forall counts,
    (forall n, In n names -> Pandas.counts_get counts n = 0%nat) ->
    Pandas.dedup_names fuel counts names = names.
Proof.
  induction 1 as [|col names Hnotin ND IH]; intros counts F; [reflexivity|].
  simpl. rewrite dedup_one_fresh by (apply F; now left).
  f_equal. apply IH. intros n Hn. simpl.
  destruct (String.eqb_spec col n) as [->|_]; [contradiction|].
  apply F. now right.
Qed.

Lemma header_names_id (names : list string) :
  NoDup names ->
  Forall (fun s => Pandas.nonempty s = true) names ->
  Pandas.header_names names = names.
Proof.
  intros ND NE. unfold Pandas.header_names.
  rewrite (unnamed_id names 0 NE).
  now apply dedup_names_fresh.
Qed.

Lemma letter_known (c : ascii) :
  is_upper c || is_lower c = true ->
  is_printable c = true /\ Ascii.eqb c " " = false.
Proof.
  destruct c as [[] [] [] [] [] [] [] []]; intros H;
    try discriminate H; split; reflexivity.
Qed.

Lemma blank_char_known (c : ascii) :
  Pandas.is_blank_char c = true ->
  is_upper c || is_lower c = false
  /\ numeral_char c = false
  /\ (is_printable c = false \/ occurs c NUMBER_CHARS = true).
Proof.
  destruct c as [[] [] [] [] [] [] [] []]; intros H;
    try discriminate H; (split; [|split]); try reflexivity;
    (now left) || (now right).
Qed.

Lemma safe_text_nonempty (s : string) :
  safe_text s = true -> Pandas.nonempty s = true.
Proof. destruct s; [discriminate|reflexivity]. Qed.

Lemma safe_text_not_na (s : string) :
  safe_text s = true -> Pandas.is_na s = false.
Proof.
  unfold safe_text, reserved. intros H.
  apply andb_prop in H. destruct H as [_ H].
  apply negb_true_iff in H. apply orb_false_elim in H. now destruct H.
Qed.

Lemma safe_text_no_int64 (s : string) :
  safe_text s = true -> Pandas.parse_int64 s = None.
Proof.
  intros H. apply safe_text_not_numeral in H.
  unfold Pandas.parse_int64.
  destruct (NilZero.int_of_string s) as [d|] eqn:E; [|reflexivity].
  assert (P : Pandas.parse_int s = Some (Z.of_int d))
    by (unfold Pandas.parse_int; now rewrite E).
  apply parse_int_numeral in P. congruence.
Qed.

Lemma safe_text_not_blank (s : string) :
  safe_text s = true -> Pandas.all_blank s = false.
Proof.
  unfold safe_text. intros H.
  apply andb_prop in H. destruct H as [H _].
  apply andb_prop in H. destruct H as [P H].
  apply orb_prop in H. destruct H as [H|H].
  - destruct s as [|c r]; [discriminate|]. simpl in *.
    destruct (Pandas.is_blank_char c) eqn:B; [|reflexivity].
    apply blank_char_known in B. destruct B as [B _]. congruence.
  - induction s as [|c r IH]; [discriminate|].
    cbn [has_foreign] in H. cbn [all_printable] in P.
    cbn [Pandas.all_blank].
    apply andb_prop in P. destruct P as [Pc P].
    destruct (Pandas.is_blank_char c) eqn:B; [|reflexivity].
    apply blank_char_known in B. destruct B as (_ & _ & [B|B]);
      [congruence|].
    rewrite B in H. simpl in H. simpl. now apply IH.
Qed.

Lemma int_text_not_blank (s : string) (d : Decimal.signed_int) :
  NilZero.int_of_string s = Some d -> Pandas.all_blank s = false.
Proof.
  intros E.
  assert (P : Pandas.parse_int s = Some (Z.of_int d))
    by (unfold Pandas.parse_int; now rewrite E).
  apply parse_int_numeral in P.
  destruct s as [|c r]; [discriminate|]. simpl in *.
  apply andb_prop in P. destruct P as [N _].
  destruct (Pandas.is_blank_char c) eqn:B; [|reflexivity].
  apply blank_char_known in B. destruct B as (_ & B & _). congruence.
Qed.

Lemma str_of_Z_not_blank (z : Z) :
  Pandas.all_blank (Pandas.str_of_Z z) = false.
Proof.
  destruct (to_int_proper z) as [A B].
  apply (int_text_not_blank _ (Z.to_int z)).
  unfold Pandas.str_of_Z. now apply NilZero.isi.
Qed.

Lemma letters_unspaced (s : string) :
  all_letters s = true -> unspaced s = s /\ all_printable s = true.
Proof.
  induction s as [|c r IH]; [now split|]. simpl. intros H.
  apply andb_prop in H. destruct H as [L H].
  destruct (letter_known c L) as [P ->]. rewrite P.
  destruct (IH H) as [-> ->]. now split.
Qed.

(** A plain word is text that is plainly no number. *)
Lemma plain_word_safe_text (s : string) :
  plain_word s = true -> safe_text s = true.
Proof.
  intros P. pose proof (plain_word_not_na s P) as NA.
  unfold plain_word in P.
  apply andb_prop in P. destruct P as [P R].
  apply andb_prop in P. destruct P as [N L].
  destruct (letters_unspaced s L) as [U A].
  unfold safe_text, reserved. rewrite A, NA, U, orb_false_l, R.
  destruct s as [|c r]; [discriminate|]. simpl in *.
  apply andb_prop in L. destruct L as [-> _]. reflexivity.
Qed.

Lemma text_labels_names (cols : list Label) :
  forallb text_label cols = true ->
  map LStr (map Pandas.label_str cols) = cols
  /\ Forall (fun s => Pandas.nonempty s = true) (map Pandas.label_str cols).
Proof.
  induction cols as [|l cols IH]; simpl; intros H; [now split|].
  apply andb_prop in H. destruct H as [Hl H].
  destruct (IH H) as [E F]. rewrite E.
  destruct l as [i|s]; [discriminate|]. simpl in *. split; [reflexivity|].
  constructor; [now apply safe_text_nonempty | assumption].
Qed.

Lemma filter_all {A} (f : A -> bool) (l : list A) :
  (forall x, In x l -> f x = true) -> filter f l = l.
Proof.
  induction l as [|a l IH]; intros H; [reflexivity|].
  simpl. rewrite (H a) by now left.
  f_equal. apply IH. intros x Hx. apply H. now right.
Qed.

Lemma existsb_none {A} (f : A -> bool) (l : list A) :
  (forall x, In x l -> f x = false) -> existsb f l = false.
Proof.
  induction l as [|a l IH]; intros H; [reflexivity|].
  simpl. rewrite (H a) by now left.
  apply IH. intros x Hx. apply H. now right.
Qed.

Lemma pad_full (k : nat) (r : list string) :
  length r = k -> Pandas.pad k r = r.
Proof.
  intros <-. unfold Pandas.pad. rewrite Nat.sub_diag. apply app_nil_r.
Qed.

Lemma column_fields_encode (j : nat) (rows : list (list Cell)) :
  Pandas.column_fields j (map (map Pandas.cell_csv) rows)
  = map Pandas.cell_csv (map (fun r => nth j r CNaN) rows).
Proof.
  unfold Pandas.column_fields. rewrite !map_map.
  apply map_ext. intros r.
  change EmptyString with (Pandas.cell_csv CNaN). apply map_nth.
Qed.

Lemma int_column_kind (cells : list Cell) :
  forallb int_cell cells = true ->
  forallb Pandas.is_int64 (map Pandas.cell_csv cells) = true.
Proof.
  induction cells as [|c cells IH]; simpl; intros H; [reflexivity|].
  apply andb_prop in H. destruct H as [Hc H]. rewrite (IH H).
  destruct c as [s|z|]; try discriminate. simpl in *.
  unfold Pandas.is_int64. now rewrite parse_int64_str.
Qed.

Lemma text_column_kind (cells : list Cell) (c : Cell) :
  forallb text_or_missing cells = true ->
  In c cells ->
  forallb Pandas.is_int64 (map Pandas.cell_csv cells) = false.
Proof.
  intros H Hin. destruct cells as [|c0 cells]; [destruct Hin|].
  simpl in *. apply andb_prop in H. destruct H as [Hc _].
  destruct c0 as [s|z|]; try discriminate; simpl.
  - unfold Pandas.is_int64 at 1. now rewrite safe_text_no_int64.
  - reflexivity.
Qed.

(** A cell of a column of integers, or of a column of text and missing
    cells, is read back from its written form as itself. *)
Lemma convert_written (cells : list Cell) (c : Cell) :
  forallb int_cell cells || forallb text_or_missing cells = true ->
  In c cells ->
  Pandas.convert (Pandas.column_kind (map Pandas.cell_csv cells))
                 (Pandas.cell_csv c) = c.
Proof.
  intros H Hin. unfold Pandas.column_kind.
  destruct (forallb int_cell cells) eqn:I.
  - rewrite (int_column_kind cells I).
    rewrite forallb_forall in I. specialize (I c Hin).
    destruct c as [s|z|]; try discriminate. simpl in *.
    now rewrite parse_int64_str.
  - simpl in H. rewrite (text_column_kind cells c H Hin).
    rewrite forallb_forall in H. specialize (H c Hin).
    destruct c as [s|z|]; try discriminate; simpl in *.
    + now rewrite safe_text_not_na.
    + reflexivity.
Qed.

(** Such a cell, written alone on a line, does not make a blank line. *)
Lemma written_cell_nonblank (cells : list Cell) (c : Cell) :
  forallb int_cell cells || forallb text_or_missing cells = true ->
  In c cells ->
  Pandas.nonblank [Pandas.cell_csv c] = true.
Proof.
  intros H Hin.
  assert (K : int_cell c = true \/ text_or_missing c = true).
  { apply orb_prop in H. destruct H as [H|H];
      rewrite forallb_forall in H; [left|right]; now apply H. }
  destruct c as [s|z|]; simpl; destruct K as [K|K]; try discriminate;
    try reflexivity.
  - now rewrite (safe_text_not_blank s K), andb_false_r.
  - now rewrite str_of_Z_not_blank, andb_false_r.
Qed.

Lemma rebuild_row (r : list Cell) :
  forall kinds : list Pandas.ColumnKind,
    length kinds = length r ->
    (forall j, (j < length r)%nat ->
       Pandas.convert (nth j kinds Pandas.KObject)
                      (Pandas.cell_csv (nth j r CNaN)) = nth j r CNaN) ->
    map (fun kf => Pandas.convert (fst kf) (snd kf))
        (combine kinds (map Pandas.cell_csv r)) = r.
Proof.
  induction r as [|c r IH]; intros kinds L H.
  - destruct kinds; [reflexivity|discriminate].
  - destruct kinds as [|k kinds]; [discriminate|]. simpl.
    f_equal.
    + apply (H 0%nat). simpl. lia.
    + apply IH; [simpl in L; lia|].
      intros j Hj. apply (H (S j)). simpl. lia.
Qed.

Lemma nth_map_seq {A} (f : nat -> A) (k j : nat) (d : A) :
  (j < k)%nat -> nth j (map f (seq 0 k)) d = f j.
Proof.
  intros H.
  rewrite (nth_indep _ d (f 0%nat)) by now rewrite length_map, length_seq.
  rewrite map_nth, seq_nth by assumption. reflexivity.
Qed.

(** What [to_csv] writes for a safe table is decoded as that table. *)
Lemma decode_encode (d : DataFrame) :
  wf d -> safe_table d = true ->
  Pandas.decode (Pandas.encode d) = Ok d.
Proof.
  destruct d as [cols rows]. unfold wf, rectangular, safe_table.
  unfold Pandas.ncols. simpl.
  intros [ND RECT] P.
  apply andb_prop in P. destruct P as [P COLS].
  apply andb_prop in P. destruct P as [NE WL].
  rewrite Forall_forall in RECT. rewrite forallb_forall in COLS.
  destruct (text_labels_names cols WL) as [NAMES NONEMPTY].
  assert (K : (0 < length cols)%nat).
  { destruct cols; [discriminate|simpl; lia]. }
  unfold Pandas.decode, Pandas.encode. simpl.
  assert (HB : Pandas.nonblank (map Pandas.label_str cols) = true).
  { destruct cols as [|l [|l' cols]]; [simpl in K; lia| |reflexivity].
    simpl in WL. rewrite andb_true_r in WL.
    destruct l as [i|s]; [discriminate|]. simpl.
    now rewrite (safe_text_not_blank s WL), andb_false_r. }
  rewrite HB.
  rewrite filter_all.
  2: { intros x Hx. apply in_map_iff in Hx. destruct Hx as [r [<- Hr]].
       pose proof (RECT r Hr) as Lr.
       destruct r as [|c [|c' r]]; [simpl in Lr; lia| |reflexivity].
       apply (written_cell_nonblank
                (column_cells 0 (mkDF cols rows)) c).
       - apply COLS. apply in_seq. lia.
       - unfold column_cells. simpl. apply in_map_iff.
         exists [c]. now split. }
  rewrite existsb_none.
  2: { intros x Hx. apply in_map_iff in Hx. destruct Hx as [r [<- Hr]].
       rewrite !length_map, (RECT r Hr). apply Nat.ltb_irrefl. }
  assert (PAD : map (Pandas.pad (length (map Pandas.label_str cols)))
                    (map (map Pandas.cell_csv) rows)
                = map (map Pandas.cell_csv) rows).
  { rewrite <- (map_id (map (map Pandas.cell_csv) rows)) at 2.
    apply map_ext_in. intros x Hx.
    apply in_map_iff in Hx. destruct Hx as [r [<- Hr]].
    apply pad_full. rewrite !length_map. now apply RECT. }
  rewrite PAD.
  rewrite header_names_id; [|apply (NoDup_map_inv LStr); now rewrite NAMES
                            |assumption].
  rewrite NAMES. f_equal. f_equal.
  rewrite map_map.
  rewrite <- (map_id rows) at 2.
  apply map_ext_in. intros r Hr.
  apply rebuild_row.
  - rewrite !length_map, length_seq. symmetry. now apply RECT.
  - intros j Hj. rewrite (RECT r Hr) in Hj.
    rewrite length_map.
    rewrite nth_map_seq by assumption.
    rewrite column_fields_encode.
    apply convert_written.
    + apply (COLS j). apply in_seq. lia.
    + apply in_map_iff. exists r. now split.
Qed.

(** C2, amended.  For a safe table -- rectangular, with at least one
    column, distinct column names that are text plainly no number, and
    every column holding either int64 integers only, or only missing
    cells and text that is plainly no number (printable ASCII that starts
    with a letter or holds a character no number is written with, and is
    no reserved word) -- saving it to a path that can be written and
    loading that path leaves exactly that table in the sheet: the same
    columns in the same order and the same rows with the same cells. *)
Theorem save_then_load_safe_table (path : string)
  (fs : Pandas.FileSystem) (self : Spreadsheet) :
  wf (df self) ->
  safe_table (df self) = true ->
  Pandas.writable fs path = true ->
  snd (save_csv path fs self) = Returns (Saved path)
  /\ save_then_load path fs self
     = (self, Returns (Loaded (Pandas.len (df self))
                              (Pandas.ncols (df self))))
  /\ columns (df (fst (save_then_load path fs self))) = columns (df self)
  /\ data (df (fst (save_then_load path fs self))) = data (df self).
Proof.
  intros W P Wr.
  assert (S : save_csv path fs self
              = (Pandas.write path (Pandas.encode (df self)) fs,
                 Returns (Saved path))).
  { unfold save_csv, Pandas.to_csv. now rewrite Wr. }
  assert (L : save_then_load path fs self
              = (self, Returns (Loaded (Pandas.len (df self))
                                       (Pandas.ncols (df self))))).
  { unfold save_then_load. rewrite S. simpl.
    unfold load_csv, Pandas.read_csv, Pandas.write. simpl.
    rewrite String.eqb_refl, (decode_encode (df self) W P).
    now destruct self. }
  rewrite S, L. repeat split.
Qed.

Lemma wf_ledger : wf (df ledger).
Proof.
  split; simpl.
  - repeat constructor; simpl; intuition discriminate.
  - repeat constructor.
Qed.

Lemma wf_parts_sheet : wf (df parts_sheet).
Proof.
  split; simpl.
  - repeat constructor; simpl; intuition discriminate.
  - repeat constructor.
Qed.

Lemma save_then_load_safe_table_witness :
  save_then_load "parts.csv" any_disk parts_sheet
  = (parts_sheet, Returns (Loaded 2 3)).
Proof.
  refine (proj1 (proj2 (save_then_load_safe_table
                          "parts.csv" any_disk parts_sheet
                          wf_parts_sheet _ _))).
  - vm_compute. reflexivity.
  - reflexivity.
Defined.

(** * Further properties of the engine *)

(** ** Every table the program holds is rectangular, with distinct names *)

Lemma string_length_append (a b : string) :
  String.length (a ++ b)%string = (String.length a + String.length b)%nat.
Proof. induction a as [|c a IH]; simpl; [reflexivity | now rewrite IH]. Qed.

(** The renaming loop of [_dedup_names] leaves with a name that has not
    been given out yet.  [emitted] are the names given out so far, which
    are exactly the keys counted; [visited] are the candidates the loop
    has already tried, each shorter than the current one. *)
Lemma dedup_one_exits (fuel : nat) :
  forall (counts : list (string * nat)) (col : string)
         (visited emitted : list string),
    (forall k, (0 < Pandas.counts_get counts k)%nat <-> In k emitted) ->
    NoDup visited ->
    incl visited emitted ->
    (forall v, In v visited -> (String.length v < String.length col)%nat) ->
    (length emitted < fuel + length visited)%nat ->
    Pandas.counts_get (fst (Pandas.dedup_one fuel counts col))
                      (snd (Pandas.dedup_one fuel counts col)) = 0%nat
    /\ (forall k,
          (0 < Pandas.counts_get (fst (Pandas.dedup_one fuel counts col)) k)%nat
          <-> In k emitted).
Proof.
  induction fuel as [|fuel IH]; intros counts col visited emitted T ND I SH B.
  - pose proof (NoDup_incl_length ND I). simpl in B. lia.
  - simpl. destruct (Pandas.counts_get counts col) as [|n] eqn:C.
    + simpl. now split.
    + assert (Hcol : In col emitted) by (apply T; lia).
      apply (IH _ _ (col :: visited) emitted).
      * intros k. simpl. destruct (String.eqb_spec col k) as [<-|_].
        -- split; [intros _; assumption | lia].
        -- apply T.
      * constructor; [|assumption].
        intros H. specialize (SH col H). lia.
      * intros x [<-|Hx]; [assumption | now apply I].
      * intros v Hv. rewrite !string_length_append. simpl.
        destruct Hv as [<-|Hv]; [lia|]. specialize (SH v Hv). lia.
      * simpl. lia.
Qed.

Lemma dedup_names_NoDup (fuel : nat) (names : list string) :
  forall (counts : list (string * nat)) (emitted : list string),
    (forall k, (0 < Pandas.counts_get counts k)%nat <-> In k emitted) ->
    NoDup emitted ->
    (length emitted + length names <= fuel)%nat ->
    NoDup (Pandas.dedup_names fuel counts names)
    /\ (forall x, In x (Pandas.dedup_names fuel counts names) ->
                  ~ In x emitted).
Proof.
  induction names as [|col rest IH]; intros counts emitted T ND B.
  - split; [constructor | intros x []].
  - simpl in *.
    destruct (dedup_one_exits fuel counts col [] emitted T) as [Z T'];
      [constructor | intros x [] | intros v [] | simpl; lia |].
    destruct (Pandas.dedup_one fuel counts col) as [counts' col'].
    simpl in *.
    assert (Fresh : ~ In col' emitted).
    { intros H. apply T' in H. lia. }
    destruct (IH ((col', 1%nat) :: counts') (col' :: emitted)) as [ND' OUT].
    + intros k. simpl. destruct (String.eqb_spec col' k) as [<-|N].
      * split; [now left | lia].
      * rewrite T'. split; [now right | intros [E|H]; [contradiction|exact H]].
    + now constructor.
    + simpl. lia.
    + split.
      * constructor; [|assumption].
        intros H. apply (OUT col' H). now left.
      * intros x [<-|Hx]; [assumption|].
        intros H. apply (OUT x Hx). now right.
Qed.

Lemma dedup_names_length (fuel : nat) (names : list string) :
  forall counts, length (Pandas.dedup_names fuel counts names) = length names.
Proof.
  induction names as [|col rest IH]; intros counts; [reflexivity|].
  simpl. destruct (Pandas.dedup_one fuel counts col) as [counts' col'].
  simpl. now rewrite IH.
Qed.

Lemma enumerate_length {A} (l : list A) :
  forall i, length (Pandas.enumerate i l) = length l.
Proof. induction l as [|a l IH]; intros i; simpl; [|rewrite IH]; reflexivity. Qed.

Lemma header_names_NoDup (header : list string) :
  NoDup (Pandas.header_names header).
Proof.
  unfold Pandas.header_names.
  apply (dedup_names_NoDup _ _ [] []).
  - intros k. simpl. split; [lia | intros []].
  - constructor.
  - simpl. now rewrite length_map, enumerate_length.
Qed.

Lemma header_names_length (header : list string) :
  length (Pandas.header_names header) = length header.
Proof.
  unfold Pandas.header_names.
  now rewrite dedup_names_length, length_map, enumerate_length.
Qed.

(** Whatever the file holds, a table that [read_csv] returns is
    rectangular and its column names are distinct texts. *)
Lemma decode_wf (g : Pandas.csv) (d : DataFrame) :
  Pandas.decode g = Ok d ->
  wf d /\ Forall (fun l => exists s, l = LStr s) (columns d).
Proof.
  unfold Pandas.decode.
  destruct (filter Pandas.nonblank g) as [|header recs]; [discriminate|].
  destruct (existsb _ recs) eqn:LONG; [discriminate|].
  intros H. injection H as <-. split; [split|]; simpl.
  - apply Injective_map_NoDup; [|apply header_names_NoDup].
    intros a b E. now injection E.
  - unfold rectangular. simpl. apply Forall_forall. intros r Hr.
    apply in_map_iff in Hr. destruct Hr as [r' [<- Hr']].
    apply in_map_iff in Hr'. destruct Hr' as [r0 [<- Hr0]].
    rewrite !length_map, length_combine, !length_map, length_seq.
    rewrite header_names_length.
    assert (L : (length r0 <= length header)%nat).
    { destruct (Nat.ltb (length header) (length r0)) eqn:E.
      - assert (X : existsb (fun r => (length header <? length r)%nat) recs
                    = true)
          by (apply existsb_exists; exists r0; now split).
        congruence.
      - apply Nat.ltb_ge in E. exact E. }
    unfold Pandas.pad. rewrite length_app, repeat_length. lia.
  - apply Forall_forall. intros l Hl. apply in_map_iff in Hl.
    destruct Hl as [s [<- _]]. now exists s.
Qed.

Lemma run_keeps_wf (op : Op) (w : World) :
  wf (df (sheet w)) -> wf (df (sheet (fst (run op w)))).
Proof.
  intros W. destruct op; simpl; try assumption.
  - unfold load_csv, Pandas.read_csv.
    destruct (Pandas.file (disk w) path) as [| |g]; simpl; try assumption.
    destruct (Pandas.decode g) as [d|e] eqn:D.
    + simpl. now apply (decode_wf g d).
    + destruct e; assumption.
  - now destruct (save_csv path (disk w) (sheet w)).
  - pose proof (add_row_wf values (sheet w) W) as H.
    now destruct (add_row values (sheet w)).
  - pose proof (add_column_wf name values (sheet w) W) as H.
    now destruct (add_column name values (sheet w)).
Qed.

(** X1. The frame invariant holds throughout a run: starting from a table
    that is rectangular with distinct column names -- the new, empty
    store is one -- every sequence of calls, whatever files it loads and
    whichever calls fail, ends with such a table. *)
Theorem session_keeps_wf (ops : list Op) (w : World) :
  wf (df (sheet w)) ->
  wf (df (sheet (fst (session ops w)))).
Proof.
  revert w. induction ops as [|op rest IH]; intros w W; [assumption|].
  simpl. pose proof (run_keeps_wf op w W) as H.
  destruct (run op w) as [w' [r|e]]; simpl in *.
  - specialize (IH w' H). now destruct (session rest w').
  - assumption.
Qed.

Lemma wf_new_store : wf (df (__init__ None)).
Proof. split; simpl; constructor. Qed.

Lemma session_keeps_wf_witness :
  wf (df (sheet (fst (session
                        [AddRow ["a"; "b"]; AddColumn "c" ["1"];
                         Save "t.csv"; Load "t.csv"; AddRow ["x"]]
                        (new_world any_disk headless))))).
Proof.
  apply (session_keeps_wf _ (new_world any_disk headless)).
  exact wf_new_store.
Defined.

(** ** When a call can be left by an exception *)

(** X2. On a sheet the program has built, an exception leaves a call in
    exactly one situation: the call is [add_column], the table has rows
    but no column, and the number of values is not the number of rows;
    the exception is then a [ValueError].  Every other call returns. *)
Theorem exception_escapes_iff (op : Op) (w : World) (e : Exn) :
  built (sheet w) ->
  snd (run op w) = Propagates e
  <-> exists name values,
        op = AddColumn name values
        /\ columns (df (sheet w)) = []
        /\ data (df (sheet w)) <> []
        /\ length values <> Pandas.len (df (sheet w))
        /\ e = ValueError.
Proof.
  intros _. split; [apply propagates_only_from_add_column|].
  intros (name & values & -> & C & D & L & ->). simpl.
  unfold add_column, Pandas.setitem.
  assert (E : Pandas.empty (df (sheet w)) = true).
  { unfold Pandas.empty, Pandas.ncols. now rewrite C. }
  rewrite E. simpl.
  assert (V : Pandas.ensure_valid_index (length values) (df (sheet w))
              = df (sheet w)).
  { unfold Pandas.ensure_valid_index, Pandas.len.
    destruct (data (df (sheet w))); [congruence|reflexivity]. }
  rewrite V. apply Nat.eqb_neq in L. now rewrite L.
Qed.

Lemma exception_escapes_iff_witness :
  snd (run (AddColumn "a" ["1"; "2"]) columnless_world)
  = Propagates ValueError.
Proof.
  apply (proj2 (exception_escapes_iff
                  (AddColumn "a" ["1"; "2"]) columnless_world ValueError
                  built_columnless)).
  exists "a", ["1"; "2"]. repeat split; simpl; discriminate.
Defined.

(** ** Viewing *)

(** X3. On an empty sheet [view] reports that the sheet is empty, for
    every [n].  Otherwise it shows all the columns and a leading part of
    the rows, in their order: the first [n] of them (all, when there are
    fewer) for [n >= 0] -- so [view 0] shows a table without rows, not the
    empty report -- and all but the last [-n] for a negative [n]. *)
Theorem view_shows_leading_rows (n : Z) (self : Spreadsheet) :
  (Pandas.empty (df self) = true -> view n self = Returns SheetEmpty)
  /\ (Pandas.empty (df self) = false ->
        exists shown rest,
          view n self = Returns (Table (mkDF (columns (df self)) shown))
          /\ data (df self) = shown ++ rest
          /\ length shown
             = if (0 <=? n)%Z
               then Nat.min (Z.to_nat n) (Pandas.len (df self))
               else (Pandas.len (df self) - Z.to_nat (- n))%nat).
Proof.
  unfold view. split; intros E; rewrite E; [reflexivity|].
  unfold Pandas.head, Pandas.len.
  destruct (0 <=? n)%Z.
  - exists (firstn (Z.to_nat n) (data (df self))),
           (skipn (Z.to_nat n) (data (df self))).
    split; [reflexivity|]. split; [now rewrite firstn_skipn|].
    apply length_firstn.
  - set (k := (length (data (df self)) - Z.to_nat (- n))%nat).
    exists (firstn k (data (df self))), (skipn k (data (df self))).
    split; [reflexivity|]. split; [now rewrite firstn_skipn|].
    rewrite length_firstn. subst k. lia.
Qed.

Lemma view_shows_leading_rows_witness :
  view 2 five_rows
  = Returns (Table (mkDF [LStr "k"] [[CInt 1]; [CInt 2]]))
  /\ view (-2) five_rows
     = Returns (Table (mkDF [LStr "k"] [[CInt 1]; [CInt 2]; [CInt 3]]))
  /\ view 3 columnless = Returns SheetEmpty.
Proof.
  destruct (view_shows_leading_rows 2 five_rows) as [_ A].
  destruct (view_shows_leading_rows (-2) five_rows) as [_ B].
  destruct (view_shows_leading_rows 3 columnless) as [C _].
  destruct (A eq_refl) as (s1 & r1 & V1 & D1 & L1).
  destruct (B eq_refl) as (s2 & r2 & V2 & D2 & L2).
  split; [|split].
  - rewrite V1. do 2 f_equal.
    simpl in D1, L1.
    destruct s1 as [|a [|b [|c s1]]]; simpl in L1; try discriminate.
    injection D1 as -> -> _. reflexivity.
  - rewrite V2. do 2 f_equal.
    simpl in D2, L2.
    destruct s2 as [|a [|b [|c [|d s2]]]]; simpl in L2; try discriminate.
    injection D2 as -> -> -> _. reflexivity.
  - exact (C eq_refl).
Defined.

(** ** Saving and loading back, for every table *)

Lemma written_plainly_nonblank (d : DataFrame) :
  written_plainly d = true ->
  forallb Pandas.nonblank (Pandas.encode d) = true.
Proof.
  unfold written_plainly. rewrite !forallb_forall. intros H r Hr.
  specialize (H r Hr). apply andb_prop in H. now destruct H.
Qed.

Lemma decode_encode_no_columns (d : DataFrame) :
  rectangular d -> columns d = [] ->
  Pandas.decode (Pandas.encode d) = Raise EmptyDataError.
Proof.
  destruct d as [cols rows]. unfold rectangular. simpl. intros RECT ->.
  unfold Pandas.decode, Pandas.encode. simpl.
  assert (F : filter Pandas.nonblank (map (map Pandas.cell_csv) rows) = []).
  { induction RECT as [|r rows Hr _ IH]; [reflexivity|].
    simpl. destruct r; [exact IH | discriminate]. }
  now rewrite F.
Qed.

Lemma decode_encode_shape (d : DataFrame) :
  rectangular d -> columns d <> [] ->
  forallb Pandas.nonblank (Pandas.encode d) = true ->
  exists d',
    Pandas.decode (Pandas.encode d) = Ok d'
    /\ Pandas.len d' = Pandas.len d
    /\ Pandas.ncols d' = Pandas.ncols d
    /\ columns d'
       = map LStr (Pandas.header_names (map Pandas.label_str (columns d))).
Proof.
  destruct d as [cols rows]. unfold rectangular. simpl. intros RECT NE NB.
  rewrite Forall_forall in RECT.
  unfold Pandas.decode.
  rewrite filter_all by (now apply forallb_forall).
  unfold Pandas.encode. simpl.
  rewrite existsb_none.
  2: { intros x Hx. apply in_map_iff in Hx. destruct Hx as [r [<- Hr]].
       rewrite !length_map, (RECT r Hr). apply Nat.ltb_irrefl. }
  eexists. split; [reflexivity|].
  unfold Pandas.len, Pandas.ncols. simpl.
  rewrite !length_map, header_names_length, length_map.
  repeat split.
Qed.

(** X4. For every rectangular table, saved to a path that can be written
    and loaded back from it: if the table has no column, the load reports
    an empty file and the sheet stays as it is; if it has at least one
    and every line written is printable ASCII and not blank, the load
    succeeds and the table loaded has as many rows and as many columns as
    the one saved. *)
Theorem save_then_load_shape (path : string) (fs : Pandas.FileSystem)
  (self : Spreadsheet) :
  rectangular (df self) ->
  Pandas.writable fs path = true ->
  (columns (df self) = [] ->
     save_then_load path fs self = (self, Returns ErrEmptyCSV))
  /\ (columns (df self) <> [] ->
      written_plainly (df self) = true ->
        exists d,
          save_then_load path fs self
          = (mkSheet d, Returns (Loaded (Pandas.len (df self))
                                        (Pandas.ncols (df self))))
          /\ Pandas.len d = Pandas.len (df self)
          /\ Pandas.ncols d = Pandas.ncols (df self)).
Proof.
  intros RECT Wr.
  assert (R : save_then_load path fs self
              = match Pandas.decode (Pandas.encode (df self)) with
                | Ok d => (mkSheet d,
                           Returns (Loaded (Pandas.len d) (Pandas.ncols d)))
                | Raise FileNotFoundError =>
                    (self, Returns (ErrFileNotFound path))
                | Raise EmptyDataError => (self, Returns ErrEmptyCSV)
                | Raise exc => (self, Returns (ErrLoadFailed exc))
                end).
  { unfold save_then_load, save_csv, Pandas.to_csv. rewrite Wr. simpl.
    unfold load_csv, Pandas.read_csv, Pandas.write. simpl.
    now rewrite String.eqb_refl. }
  split.
  - intros C. rewrite R. now rewrite decode_encode_no_columns.
  - intros C P.
    destruct (decode_encode_shape (df self) RECT C
                (written_plainly_nonblank _ P))
      as (d & D & L & N & _).
    exists d. rewrite R, D, L, N. repeat split; assumption.
Qed.

Lemma save_then_load_shape_witness :
  save_then_load "t.csv" any_disk columnless
  = (columnless, Returns ErrEmptyCSV)
  /\ exists d, save_then_load "t.csv" any_disk words_sheet
               = (mkSheet d, Returns (Loaded 3 2)).
Proof.
  assert (R1 : rectangular (df columnless)) by (repeat constructor).
  assert (R2 : rectangular (df words_sheet)) by (repeat constructor).
  destruct (save_then_load_shape "t.csv" any_disk columnless R1 eq_refl)
    as [A _].
  destruct (save_then_load_shape "t.csv" any_disk words_sheet R2 eq_refl)
    as [_ B].
  split.
  - exact (A eq_refl).
  - destruct B as (d & E & _); [simpl; discriminate|reflexivity|].
    exists d. exact E.
Defined.

(** ** Adding a column to a table without rows *)

Lemma row_get_repeat (cols : list Label) (other : Label) :
  In other cols ->
  row_get cols (repeat CNaN (length cols)) other = Some CNaN.
Proof.
  induction cols as [|l cols IH]; intros H; [destruct H|].
  simpl. destruct (label_eqb l other) eqn:E; [reflexivity|].
  apply IH. destruct H as [->|H]; [|assumption].
  now rewrite label_eqb_refl in E.
Qed.

Lemma setitem_writes (name : string) (values : list string) (d : DataFrame) :
  Pandas.len d = 0%nat \/ Pandas.len d = length values ->
  Pandas.setitem name values d
  = (Pandas.set_column (LStr name) (map CStr values)
       (Pandas.ensure_valid_index (length values) d), None)
  /\ Pandas.len (Pandas.ensure_valid_index (length values) d)
     = length values.
Proof.
  intros H. unfold Pandas.setitem.
  assert (L : Pandas.len (Pandas.ensure_valid_index (length values) d)
              = length values).
  { rewrite ensure_valid_index_len.
    destruct H as [H|H]; rewrite H; simpl.
    - destruct (length values); reflexivity.
    - destruct (length values); reflexivity. }
  rewrite L, Nat.eqb_refl. now split.
Qed.

(** X5. A table without rows accepts a column of any length, whatever
    columns it has: the call returns, the table then has one row per
    value, each holding its value under the name, and the columns that
    were there before hold missing cells in every row.  The name is added
    as the last column unless it was already a column. *)
Theorem add_column_on_rowless_table (name : string) (values : list string)
  (self : Spreadsheet) :
  wf (df self) ->
  data (df self) = [] ->
  snd (add_column name values self) = Returns (ColumnAdded name)
  /\ Pandas.len (df (fst (add_column name values self))) = length values
  /\ columns (df (fst (add_column name values self)))
     = (if Pandas.contains (LStr name) (df self) then columns (df self)
        else columns (df self) ++ [LStr name])
  /\ (forall i v,
        nth_error values i = Some v ->
        cell (df (fst (add_column name values self))) i (LStr name)
        = Some (CStr v))
  /\ (forall i other,
        (i < length values)%nat ->
        In other (columns (df self)) ->
        other <> LStr name ->
        cell (df (fst (add_column name values self))) i other = Some CNaN).
Proof.
  intros W D.
  assert (E : Pandas.empty (df self) = true).
  { unfold Pandas.empty, Pandas.len. rewrite D. apply orb_true_r. }
  assert (L0 : Pandas.len (df self) = 0%nat)
    by (unfold Pandas.len; now rewrite D).
  destruct (setitem_writes name values (df self) (or_introl L0)) as [SI L].
  unfold add_column. rewrite E, SI. simpl.
  set (d1 := Pandas.ensure_valid_index (length values) (df self)) in *.
  assert (W1 : wf d1) by now apply ensure_valid_index_wf.
  assert (C1 : columns d1 = columns (df self)).
  { unfold d1, Pandas.ensure_valid_index. now destruct (_ && _). }
  assert (LV : length (map CStr values) = Pandas.len d1)
    by now rewrite length_map.
  split; [reflexivity|]. split; [|split; [|split]].
  - now rewrite set_column_len.
  - unfold Pandas.set_column, Pandas.contains. rewrite C1.
    now destruct (existsb _ _).
  - intros i v Hv. apply set_column_cell_same; try assumption.
    now rewrite nth_error_map, Hv.
  - intros i other Hi Hin N.
    rewrite set_column_cell_other by assumption.
    assert (D1 : data d1
                 = repeat (repeat CNaN (Pandas.ncols (df self)))
                          (length values)).
    { unfold d1, Pandas.ensure_valid_index. rewrite L0.
      destruct (length values); [lia|reflexivity]. }
    unfold cell. rewrite C1, D1.
    rewrite nth_error_repeat by exact Hi.
    now apply row_get_repeat.
Qed.

Lemma add_column_on_rowless_table_witness :
  Pandas.len (df (fst (add_column "city" ["rome"; "oslo"; "lima"]
                                  header_only))) = 3%nat
  /\ cell (df (fst (add_column "city" ["rome"; "oslo"; "lima"] header_only)))
          1 (LStr "age") = Some CNaN.
Proof.
  assert (W : wf (df header_only)).
  { split; simpl; [|constructor].
    repeat constructor; simpl; intuition discriminate. }
  destruct (add_column_on_rowless_table "city" ["rome"; "oslo"; "lima"]
              header_only W eq_refl) as (_ & L & _ & _ & O).
  split; [exact L|].
  apply O; simpl; [lia | now right; left | discriminate].
Defined.

(** ** A column that was added reads back as its values *)

Lemma contains_set_column (name : Label) (vals : list Cell) (d : DataFrame) :
  Pandas.contains name (Pandas.set_column name vals d) = true.
Proof.
  unfold Pandas.set_column.
  destruct (Pandas.contains name d) eqn:C; [exact C|].
  apply contains_In. simpl. apply in_or_app. right. now left.
Qed.

Lemma getitem_length (name : Label) (d : DataFrame) :
  Pandas.contains name d = true ->
  length (Pandas.getitem name d) = Pandas.len d.
Proof.
  intros C. unfold Pandas.getitem.
  destruct (index_of_contains _ _ C) as [j ->]. apply length_map.
Qed.

Lemma getitem_set_column (name : Label) (vals : list Cell) (d : DataFrame) :
  wf d -> length vals = Pandas.len d ->
  Pandas.getitem name (Pandas.set_column name vals d) = vals.
Proof.
  intros W L.
  pose proof (set_column_wf name vals d W) as [_ RECT'].
  pose proof (contains_set_column name vals d) as C'.
  apply nth_error_ext. intros i.
  rewrite (getitem_nth _ _ i RECT' C').
  destruct (nth_error vals i) as [v|] eqn:Hv.
  - now apply set_column_cell_same.
  - apply nth_error_None in Hv.
    unfold cell.
    assert (N : nth_error (data (Pandas.set_column name vals d)) i = None).
    { apply nth_error_None.
      pose proof (set_column_len name vals d L) as H.
      unfold Pandas.len in *. lia. }
    now rewrite N.
Qed.

(** When [add_column] succeeds on a well-formed sheet, the frame is the
    one with the column written. *)
Lemma add_column_success (name : string) (values : list string)
  (self : Spreadsheet) :
  snd (add_column name values self) = Returns (ColumnAdded name) ->
  exists d1,
    wf (df self) -> 
    (wf d1 /\ length (map CStr values) = Pandas.len d1
     /\ df (fst (add_column name values self))
        = Pandas.set_column (LStr name) (map CStr values) d1).
Proof.
  intros R.
  exists (Pandas.ensure_valid_index (length values) (df self)).
  intros W. split; [now apply ensure_valid_index_wf|].
  unfold add_column, Pandas.setitem in *.
  destruct (negb (Pandas.empty (df self)) && _); [discriminate|].
  destruct (length values =? _)%nat eqn:L; simpl in *; [|discriminate].
  apply Nat.eqb_eq in L. rewrite length_map. now split.
Qed.

(** X6. What [add_column] writes is what the column holds: whenever the
    call succeeds, on a table with or without rows, [df[name]] is the
    list of the values, so [sum_column name] is the sum of the integers
    among them when they are tame, and [filter_rows name v] finds rows
    exactly when [v] is one of them. *)
Theorem added_column_reads_back (name : string) (values : list string)
  (self : Spreadsheet) :
  wf (df self) ->
  snd (add_column name values self) = Returns (ColumnAdded name) ->
  Pandas.getitem (LStr name) (df (fst (add_column name values self)))
  = map CStr values
  /\ (tame (map CStr values) = true ->
      sum_column name (fst (add_column name values self))
      = Returns (SumOf name
                   (inject_Z (sum_Z (integers (map CStr values))))))
  /\ (forall v, In v values ->
        exists t, filter_rows name v (fst (add_column name values self))
                  = Returns (Table t))
  /\ (forall v, ~ In v values ->
        filter_rows name v (fst (add_column name values self))
        = Returns (NoRowsFound name v)).
Proof.
  intros W R.
  destruct (add_column_success name values self R) as [d1 H].
  destruct (H W) as (W1 & L1 & E). clear H.
  set (s' := fst (add_column name values self)) in *.
  pose proof (set_column_wf (LStr name) (map CStr values) d1 W1) as W'.
  rewrite <- E in W'. destruct W' as [ND' RECT'].
  assert (C' : Pandas.contains (LStr name) (df s') = true)
    by (rewrite E; apply contains_set_column).
  assert (G : Pandas.getitem (LStr name) (df s') = map CStr values)
    by (rewrite E; now apply getitem_set_column).
  assert (NE : columns (df s') <> []).
  { apply contains_In in C'. intros X. now rewrite X in C'. }
  assert (F : forall v,
             filter_rows name v s'
             = match matching_rows name v (df s') with
               | [] => Returns (NoRowsFound name v)
               | _ :: _ => Returns (Table (mkDF (columns (df s'))
                                           (matching_rows name v (df s'))))
               end).
  { intros v. unfold filter_rows. rewrite C'. simpl.
    rewrite (filtered_rows name v (df s') RECT' C').
    unfold Pandas.empty, Pandas.ncols, Pandas.len. simpl.
    destruct (columns (df s')); [congruence|].
    now destruct (matching_rows name v (df s')). }
  pose proof (getitem_cells (LStr name) (df s') RECT' C') as GC.
  rewrite G in GC.
  split; [exact G|]. split; [|split].
  - intros T. rewrite <- G in T.
    rewrite (sum_column_of_tame name s' C' T). now rewrite G.
  - intros v Hv. rewrite F.
    destruct (matching_rows name v (df s')) as [|r rs] eqn:M;
      [|eexists; reflexivity].
    exfalso.
    assert (X : In (Some (CStr v)) (map Some (map CStr values))).
    { apply in_map. now apply in_map. }
    rewrite GC in X. apply in_map_iff in X. destruct X as [r [Hr Hin]].
    assert (Y : In r (matching_rows name v (df s'))).
    { unfold matching_rows. apply filter_In. split; [assumption|].
      unfold row_matches. rewrite Hr. simpl. apply String.eqb_refl. }
    rewrite M in Y. destruct Y.
  - intros v Hv. rewrite F.
    destruct (matching_rows name v (df s')) as [|r rs] eqn:M; [reflexivity|].
    exfalso. apply Hv.
    assert (Y : In r (matching_rows name v (df s')))
      by (rewrite M; now left).
    unfold matching_rows in Y. apply filter_In in Y. destruct Y as [Hin Hm].
    unfold row_matches in Hm.
    destruct (row_get (columns (df s')) r (LStr name)) as [c|] eqn:Hc;
      [|discriminate].
    apply String.eqb_eq in Hm.
    assert (X : In (Some c) (map Some (map CStr values))).
    { rewrite GC. apply in_map_iff. exists r. now split. }
    apply in_map_iff in X. destruct X as [c' [Ec X]]. injection Ec as ->.
    apply in_map_iff in X. destruct X as [v' [<- X]]. simpl in Hm.
    now subst v'.
Qed.

Lemma added_column_reads_back_witness :
  sum_column "n" (fst (add_column "n" ["10"; "x"; "25"] (__init__ None)))
  = Returns (SumOf "n" 35).
Proof.
  destruct (added_column_reads_back "n" ["10"; "x"; "25"] (__init__ None)
              wf_new_store eq_refl) as (_ & S & _).
  exact (S eq_refl).
Defined.

(** ** The average of the cells that count *)



(** ** The positional column names *)

Lemma RangeIndex_has_no_text (n : nat) (col : string) :
  existsb (label_eqb (LStr col)) (Pandas.RangeIndex n) = false.
Proof.
  apply existsb_none. intros l Hl. unfold Pandas.RangeIndex in Hl.
  apply in_map_iff in Hl. destruct Hl as [i [<- _]]. reflexivity.
Qed.

(** X8. The columns [add_row] creates on an empty table are labelled by
    integers, and a column is asked for by a text: right after such a
    call no name finds a column, so sum, average, filter and plot all
    report a missing column, whatever name is given -- "0" included. *)
Theorem positional_columns_not_addressable (values : list string)
  (self : Spreadsheet) (col : string) :
  Pandas.empty (df self) = true ->
  sum_column col (fst (add_row values self)) = Returns (ErrNoColumn col)
  /\ average_column col (fst (add_row values self))
     = Returns (ErrNoColumn col)
  /\ (forall v, filter_rows col v (fst (add_row values self))
                = Returns (ErrNoColumn col))
  /\ (forall other kind plt,
        plot col other kind plt (fst (add_row values self))
        = Returns ErrPlotColumns
        /\ plot other col kind plt (fst (add_row values self))
           = Returns ErrPlotColumns).
Proof.
  intros E. rewrite (add_row_replace values self E). simpl.
  assert (C : forall c,
             Pandas.contains (LStr c) (Pandas.DataFrame_of_row values)
             = false).
  { intros c. apply RangeIndex_has_no_text. }
  unfold sum_column, average_column, filter_rows, plot. simpl.
  rewrite !C. simpl. repeat split. now rewrite orb_true_r.
Qed.

Lemma positional_columns_not_addressable_witness :
  sum_column "0" (fst (add_row ["7"; "8"] (__init__ None)))
  = Returns (ErrNoColumn "0").
Proof.
  exact (proj1 (positional_columns_not_addressable
                  ["7"; "8"] (__init__ None) "0" eq_refl)).
Defined.

Lemma str_of_Z_inj (a b : Z) :
  Pandas.str_of_Z a = Pandas.str_of_Z b -> a = b.
Proof.
  unfold Pandas.str_of_Z. intros H.
  apply (f_equal NilZero.int_of_string) in H.
  destruct (to_int_proper a) as [A1 A2], (to_int_proper b) as [B1 B2].
  rewrite !NilZero.isi in H by assumption.
  injection H as H. apply (f_equal Z.of_int) in H.
  now rewrite !DecimalZ.of_to in H.
Qed.

Lemma str_of_Z_nonempty (z : Z) :
  Pandas.nonempty (Pandas.str_of_Z z) = true.
Proof.
  destruct (to_int_proper z) as [A B].
  pose proof (NilZero.isi _ A B) as H. unfold Pandas.str_of_Z.
  destruct (NilZero.string_of_int (Z.to_int z)); [discriminate|reflexivity].
Qed.

Lemma save_then_load_decodes (path : string) (fs : Pandas.FileSystem)
  (self : Spreadsheet) :
  Pandas.writable fs path = true ->
  save_then_load path fs self
  = match Pandas.decode (Pandas.encode (df self)) with
    | Ok d => (mkSheet d, Returns (Loaded (Pandas.len d) (Pandas.ncols d)))
    | Raise FileNotFoundError => (self, Returns (ErrFileNotFound path))
    | Raise EmptyDataError => (self, Returns ErrEmptyCSV)
    | Raise exc => (self, Returns (ErrLoadFailed exc))
    end.
Proof.
  intros Wr.
  unfold save_then_load, save_csv, Pandas.to_csv. rewrite Wr. simpl.
  unfold load_csv, Pandas.read_csv, Pandas.write. simpl.
  now rewrite String.eqb_refl.
Qed.

(** X9. Saving and loading turns the positional names into texts: after
    [add_row] on an empty table of at least one value, the values being
    printable ASCII and not a single blank one, a save to a path that can
    be written and a load from it, the table has one row and the columns
    "0", "1", ... as texts, so that each of them is now found under its
    printed position. *)
Theorem reloaded_positional_names (values : list string)
  (self : Spreadsheet) (path : string) (fs : Pandas.FileSystem) :
  Pandas.empty (df self) = true ->
  values <> [] ->
  Pandas.nonblank values = true ->
  forallb all_printable values = true ->
  Pandas.writable fs path = true ->
  exists d,
    save_then_load path fs (fst (add_row values self))
    = (mkSheet d, Returns (Loaded 1 (length values)))
    /\ columns d
       = map (fun i => LStr (Pandas.str_of_Z (Z.of_nat i)))
             (seq 0 (length values))
    /\ Pandas.len d = 1%nat
    /\ (forall j, (j < length values)%nat ->
          Pandas.contains (LStr (Pandas.str_of_Z (Z.of_nat j))) d = true).
Proof.
  intros E NE NBv _ Wr. rewrite (add_row_replace values self E). simpl.
  rewrite save_then_load_decodes by assumption. simpl df.
  assert (RECT : rectangular (Pandas.DataFrame_of_row values))
    by apply wf_DataFrame_of_row.
  assert (CN : columns (Pandas.DataFrame_of_row values) <> []).
  { simpl. unfold Pandas.RangeIndex. destruct values; [congruence|].
    simpl. discriminate. }
  assert (NB : forallb Pandas.nonblank
                 (Pandas.encode (Pandas.DataFrame_of_row values)) = true).
  { unfold Pandas.encode, Pandas.DataFrame_of_row. simpl.
    rewrite map_map. simpl. rewrite map_id, NBv, andb_true_r.
    destruct values as [|v [|v' vs]]; [congruence|reflexivity|reflexivity]. }
  destruct (decode_encode_shape _ RECT CN NB) as (d & D & L & N & H).
  exists d. rewrite D.
  assert (HN : map Pandas.label_str
                   (columns (Pandas.DataFrame_of_row values))
               = map (fun i => Pandas.str_of_Z (Z.of_nat i))
                     (seq 0 (length values))).
  { simpl. unfold Pandas.RangeIndex. now rewrite map_map. }
  rewrite HN in H. rewrite header_names_id in H.
  - rewrite map_map in H.
    unfold Pandas.len, Pandas.ncols in *. simpl in L, N.
    unfold Pandas.RangeIndex in N. rewrite length_map, length_seq in N.
    rewrite L, N. split; [reflexivity|]. split; [exact H|].
    split; [reflexivity|].
    intros j Hj. apply contains_In. rewrite H.
    apply in_map_iff. exists j. split; [reflexivity|].
    apply in_seq. lia.
  - apply Injective_map_NoDup; [|apply seq_NoDup].
    intros a b X. apply str_of_Z_inj in X. lia.
  - apply Forall_forall. intros s Hs. apply in_map_iff in Hs.
    destruct Hs as [i [<- _]]. apply str_of_Z_nonempty.
Qed.

Lemma reloaded_positional_names_witness :
  exists d,
    save_then_load "t.csv" any_disk (fst (add_row ["7"; "x"] (__init__ None)))
    = (mkSheet d, Returns (Loaded 1 2))
    /\ columns d = [LStr "0"; LStr "1"].
Proof.
  destruct (reloaded_positional_names ["7"; "x"] (__init__ None)
              "t.csv" any_disk eq_refl) as (d & A & B & _).
  - discriminate.
  - reflexivity.
  - reflexivity.
  - reflexivity.
  - exists d. split; [exact A | exact B].
Defined.

(** ** Building a table row by row *)

Lemma session_add_rows (rows : list (list string)) :
  forall w : World,
    Pandas.empty (df (sheet w)) = false ->
    session (map AddRow rows) w
    = (mkWorld
         (mkSheet
            (mkDF (columns (df (sheet w)))
                  (data (df (sheet w))
                   ++ map (map CStr)
                        (filter (fun r => (length r
                                           =? Pandas.ncols (df (sheet w)))%nat)
                                rows))))
         (disk w) (pyplot w),
       map (fun r =>
              if (length r =? Pandas.ncols (df (sheet w)))%nat
              then Returns RowAdded
              else Returns (ErrExpected (Pandas.ncols (df (sheet w)))
                                        (length r)))
           rows).
Proof.
  induction rows as [|r rows IH]; intros w E.
  - simpl. rewrite app_nil_r. now destruct w as [[[c d]] fs p].
  - simpl.
    destruct (length r =? Pandas.ncols (df (sheet w)))%nat eqn:L.
    + apply Nat.eqb_eq in L.
      rewrite (add_row_append r (sheet w) E L).
      set (w' := mkWorld _ (disk w) (pyplot w)).
      assert (E' : Pandas.empty (df (sheet w')) = false).
      { apply empty_false in E. destruct E as [C D].
        apply empty_false. simpl. split; [assumption|].
        intros X. apply app_eq_nil in X. destruct X. discriminate. }
      rewrite (IH w' E'). simpl.
      unfold Pandas.ncols. simpl. rewrite <- app_assoc. reflexivity.
    + apply Nat.eqb_neq in L.
      rewrite (add_row_mismatch r (sheet w) E L).
      assert (W : mkWorld (sheet w) (disk w) (pyplot w) = w)
        by now destruct w.
      rewrite W, (IH w E). reflexivity.
Qed.

(** X10. Rows typed one after the other build the table one expects:
    from a new store, the first row (of at least one value) fixes the
    number of columns; after it every row of that length is appended, in
    order, and every row of another length is refused with a shape
    mismatch and changes nothing.  The final table holds the first row
    and the accepted ones, under the positional names. *)
Theorem table_built_by_rows (first : list string)
  (rows : list (list string)) (fs : Pandas.FileSystem) (plt : Pyplot) :
  first <> [] ->
  session (map AddRow (first :: rows)) (new_world fs plt)
  = (mkWorld
       (mkSheet
          (mkDF (Pandas.RangeIndex (length first))
                (map (map CStr)
                     (first :: filter (fun r => (length r =? length first)%nat)
                                      rows))))
       fs plt,
     Returns RowAdded
     :: map (fun r =>
               if (length r =? length first)%nat then Returns RowAdded
               else Returns (ErrExpected (length first) (length r)))
            rows).
Proof.
  intros NE. simpl.
  rewrite session_add_rows.
  - simpl. unfold Pandas.ncols. simpl.
    assert (N : length (Pandas.RangeIndex (length first)) = length first).
    { unfold Pandas.RangeIndex. now rewrite length_map, length_seq. }
    now rewrite N.
  - apply empty_false. simpl. split; [|discriminate].
    unfold Pandas.RangeIndex. destruct first; [congruence|discriminate].
Qed.

Lemma table_built_by_rows_witness :
  data (df (sheet (fst (session
                          (map AddRow [["a"; "b"]; ["c"]; ["d"; "e"]])
                          (new_world any_disk headless)))))
  = [[CStr "a"; CStr "b"]; [CStr "d"; CStr "e"]].
Proof.
  rewrite (table_built_by_rows ["a"; "b"] [["c"]; ["d"; "e"]]
             any_disk headless); [reflexivity | discriminate].
Defined.

(** ** A row that was added is found again *)

(** X19. On a sheet the program has built that is not empty, with [k]
    columns: a row of [k] values is appended -- one more row, the same
    columns under the same names, and in the new last row the cell under
    the [j]-th column is the [j]-th value; a row of any other length is
    refused with a shape mismatch and the sheet is left as it was.  (The
    rows of a built sheet are labelled 0, 1, 2, ..., so that the label
    [len(df)] is a new one.) *)
Theorem add_row_on_built_table (values : list string)
  (self : Spreadsheet) :
  built self ->
  Pandas.empty (df self) = false ->
  (length values = Pandas.ncols (df self) ->
     snd (add_row values self) = Returns RowAdded
     /\ Pandas.len (df (fst (add_row values self)))
        = S (Pandas.len (df self))
     /\ Pandas.ncols (df (fst (add_row values self)))
        = Pandas.ncols (df self)
     /\ columns (df (fst (add_row values self))) = columns (df self)
     /\ data (df (fst (add_row values self)))
        = data (df self) ++ [map CStr values]
     /\ (forall j name v,
           nth_error (columns (df self)) j = Some name ->
           nth_error values j = Some v ->
           cell (df (fst (add_row values self))) (Pandas.len (df self)) name
           = Some (CStr v))
     /\ wf (df (fst (add_row values self))))
  /\ (length values <> Pandas.ncols (df self) ->
        fst (add_row values self) = self
        /\ exists r, snd (add_row values self) = Returns r
                     /\ failure_kind r = Some ShapeMismatch).
Proof.
  intros B E. destruct (built_wf self B) as [ND RECT]. split.
  - intros L. rewrite (add_row_append values self E L). simpl.
    unfold Pandas.len, Pandas.ncols in *. simpl.
    repeat split; try reflexivity.
    + rewrite length_app. simpl. lia.
    + intros j name v Hc Hv. unfold cell. simpl.
      rewrite nth_error_app2 by lia. rewrite Nat.sub_diag. simpl.
      eapply row_get_nth; try eassumption.
      rewrite nth_error_map, Hv. reflexivity.
    + assumption.
    + unfold rectangular in *. simpl. apply Forall_app. split; [assumption|].
      constructor; [|constructor]. now rewrite length_map.
  - intros N. rewrite (add_row_mismatch values self E N). simpl.
    split; [reflexivity|]. eexists. split; reflexivity.
Qed.

Lemma add_row_on_built_table_witness :
  data (df (fst (add_row ["3"] one_column)))
  = [[CStr "1"]; [CStr "2"]; [CStr "3"]]
  /\ fst (add_row ["3"; "4"] one_column) = one_column.
Proof.
  destruct (add_row_on_built_table ["3"] one_column
              built_one_column eq_refl) as [A _].
  destruct (add_row_on_built_table ["3"; "4"] one_column
              built_one_column eq_refl) as [_ B].
  split.
  - destruct (A eq_refl) as (_ & _ & _ & _ & D & _). exact D.
  - assert (N : length ["3"; "4"] <> Pandas.ncols (df one_column))
      by (simpl; discriminate).
    exact (proj1 (B N)).
Defined.

(** X11. After a row is appended to a built sheet that is not empty,
    filtering on any text column by the value the row has there finds
    rows, and the new row is among them. *)
Theorem added_row_is_found (values : list string) (self : Spreadsheet)
  (j : nat) (col v : string) :
  built self ->
  Pandas.empty (df self) = false ->
  length values = Pandas.ncols (df self) ->
  nth_error (columns (df self)) j = Some (LStr col) ->
  nth_error values j = Some v ->
  exists t,
    filter_rows col v (fst (add_row values self)) = Returns (Table t)
    /\ columns t = columns (df self)
    /\ In (map CStr values) (data t).
Proof.
  intros B E L Hc Hv. destruct (built_wf self B) as [ND RECT].
  rewrite (add_row_append values self E L). simpl.
  set (d' := mkDF (columns (df self)) (data (df self) ++ [map CStr values])).
  assert (RECT' : rectangular d').
  { unfold rectangular in *. simpl. apply Forall_app. split; [assumption|].
    constructor; [|constructor]. now rewrite length_map. }
  assert (C' : Pandas.contains (LStr col) d' = true).
  { apply contains_In. simpl. eapply nth_error_In; eassumption. }
  assert (M : In (map CStr values) (matching_rows col v d')).
  { unfold matching_rows. apply filter_In. simpl. split.
    - apply in_or_app. right. now left.
    - unfold row_matches.
      rewrite (row_get_nth (columns (df self)) (map CStr values) j
                 (LStr col) (CStr v) ND Hc).
      + simpl. apply String.eqb_refl.
      + now rewrite nth_error_map, Hv. }
  unfold filter_rows. simpl df. rewrite C'. simpl.
  rewrite (filtered_rows col v d' RECT' C').
  unfold Pandas.empty, Pandas.ncols, Pandas.len. simpl.
  destruct (columns (df self)) as [|c0 cs] eqn:CS;
    [destruct j; discriminate|].
  destruct (matching_rows col v d') as [|r rs] eqn:MR; [destruct M|].
  simpl. eexists. split; [reflexivity|]. split; [reflexivity|exact M].
Qed.

Lemma added_row_is_found_witness :
  exists t,
    filter_rows "n" "idle" (fst (add_row ["idle"] numbers_sheet))
    = Returns (Table t)
    /\ In [CStr "idle"] (data t).
Proof.
  destruct (added_row_is_found ["idle"] numbers_sheet 0 "n" "idle"
              built_numbers_sheet eq_refl eq_refl eq_refl eq_refl)
    as (t & A & _ & B).
  exists t. split; [exact A | exact B].
Defined.

(** ** Sums follow the rows *)

Lemma map_Some_inj {A} (l l' : list A) :
  map Some l = map Some l' -> l = l'.
Proof.
  revert l'. induction l as [|a l IH]; intros [|b l'] H;
    try discriminate; [reflexivity|].
  simpl in H. injection H as -> H. f_equal. now apply IH.
Qed.

Lemma integers_app (a b : list Cell) :
  integers (a ++ b) = integers a ++ integers b.
Proof.
  induction a as [|c a IH]; [reflexivity|]. simpl.
  destruct (Pandas.integer_of_cell c); simpl; now rewrite IH.
Qed.

Lemma sum_Z_app (a b : list Z) : sum_Z (a ++ b) = (sum_Z a + sum_Z b)%Z.
Proof. induction a as [|z a IH]; simpl; [reflexivity | rewrite IH; lia]. Qed.

Lemma sum_abs_app (a b : list Z) :
  sum_abs (a ++ b) = (sum_abs a + sum_abs b)%Z.
Proof. induction a as [|z a IH]; simpl; [reflexivity | rewrite IH; lia]. Qed.

Lemma sum_abs_nonneg (a : list Z) : (0 <= sum_abs a)%Z.
Proof. induction a as [|z a IH]; simpl; lia. Qed.

Lemma tame_app_l (a b : list Cell) : tame (a ++ b) = true -> tame a = true.
Proof.
  unfold tame. rewrite forallb_app, integers_app, sum_abs_app. intros H.
  apply andb_prop in H. destruct H as [H B].
  apply andb_prop in H. destruct H as [-> _]. simpl.
  apply Z.leb_le in B. apply Z.leb_le.
  pose proof (sum_abs_nonneg (integers b)). lia.
Qed.

(** X12. On a built sheet, appending a row adds its cell to the sum of
    each text column: where the column stays tame, the sum after
    [add_row] is the sum before plus the integer the new cell writes,
    and the same sum when the new cell is no number. *)
Theorem sum_after_add_row (values : list string) (self : Spreadsheet)
  (j : nat) (col v : string) :
  built self ->
  Pandas.empty (df self) = false ->
  length values = Pandas.ncols (df self) ->
  nth_error (columns (df self)) j = Some (LStr col) ->
  nth_error values j = Some v ->
  tame (Pandas.getitem (LStr col) (df self) ++ [CStr v]) = true ->
  exists before after : Z,
    sum_column col self = Returns (SumOf col (inject_Z before))
    /\ sum_column col (fst (add_row values self))
       = Returns (SumOf col (inject_Z after))
    /\ after = (before + match Pandas.parse_int v with
                         | Some z => z
                         | None => 0
                         end)%Z.
Proof.
  intros B E L Hc Hv T. destruct (built_wf self B) as [ND RECT].
  rewrite (add_row_append values self E L). simpl.
  set (d' := mkDF (columns (df self)) (data (df self) ++ [map CStr values])).
  assert (RECT' : rectangular d').
  { unfold rectangular in *. simpl. apply Forall_app. split; [assumption|].
    constructor; [|constructor]. now rewrite length_map. }
  assert (C : Pandas.contains (LStr col) (df self) = true).
  { apply contains_In. eapply nth_error_In; eassumption. }
  assert (C' : Pandas.contains (LStr col) d' = true) by exact C.
  assert (G : Pandas.getitem (LStr col) d'
              = Pandas.getitem (LStr col) (df self) ++ [CStr v]).
  { apply map_Some_inj.
    rewrite (getitem_cells _ d' RECT' C'). simpl.
    rewrite map_app, map_app. simpl.
    rewrite <- (getitem_cells _ (df self) RECT C).
    f_equal. f_equal.
    apply (row_get_nth _ _ j); try assumption.
    now rewrite nth_error_map, Hv. }
  exists (sum_Z (integers (Pandas.getitem (LStr col) (df self)))),
         (sum_Z (integers (Pandas.getitem (LStr col) d'))).
  split; [apply (sum_column_of_tame col self C (tame_app_l _ _ T))|].
  split.
  - apply (sum_column_of_tame col (mkSheet d') C'). simpl df. now rewrite G.
  - rewrite G, integers_app, sum_Z_app. simpl.
    destruct (Pandas.parse_int v); simpl; lia.
Qed.

Lemma sum_after_add_row_witness :
  sum_column "n" (fst (add_row ["25"] numbers_sheet))
  = Returns (SumOf "n" 32).
Proof.
  destruct (sum_after_add_row ["25"] numbers_sheet 0 "n" "25"
              built_numbers_sheet eq_refl eq_refl eq_refl eq_refl eq_refl)
    as (before & after & B & A & Q).
  rewrite A. injection B as B. subst before after. reflexivity.
Defined.

(** ** Preparing a chart *)

Lemma values_chartable (cells : list Cell) (s : Pandas.Series) :
  chartable cells = true ->
  Pandas.to_numeric cells = Ok s ->
  Pandas.values s = map number_of cells.
Proof.
  intros H R. unfold Pandas.to_numeric in R.
  destruct (Pandas.all_int64 cells) as [zs|] eqn:E; injection R as <-; simpl.
  - clear H. revert zs E.
    induction cells as [|c cells IH]; intros zs E; simpl in *.
    + now injection E as <-.
    + unfold number_of at 1.
      destruct (Pandas.integer_of_cell c) as [z|]; [|discriminate].
      destruct (Pandas.all_int64 cells) as [zs'|]; [|discriminate].
      destruct (Pandas.in_int64_range z); [|discriminate].
      injection E as <-. simpl. now rewrite (IH zs').
  - clear E. unfold chartable in H. rewrite forallb_forall in H.
    apply map_ext_in. intros c Hc. specialize (H c Hc).
    unfold number_of.
    destruct (Pandas.integer_of_cell c) as [z|] eqn:I.
    + now apply integer_cell_number.
    + now destruct (certainly_text_nan c H).
Qed.

(** X13. [plot] decides in this order.  A missing column is reported
    first, whatever the kind.  With both columns present, a failure of
    [plt.figure()] is reported as a failed plot even for a kind that is
    not drawn; otherwise a kind other than "line" and "bar" is reported
    as unsupported and nothing is drawn.  For "line" and "bar", on two
    columns whose cells are integers of absolute value at most 2^53 or
    plainly text, the renderer is handed one x and one y per row of the
    table, each the integer its cell writes or [nan], and the call
    reports what the renderer did. *)
Theorem plot_prepares_request (x_col y_col kind : string) (plt : Pyplot)
  (self : Spreadsheet) :
  (Pandas.contains (LStr x_col) (df self) = false
   \/ Pandas.contains (LStr y_col) (df self) = false ->
   plot x_col y_col kind plt self = Returns ErrPlotColumns)
  /\ (Pandas.contains (LStr x_col) (df self) = true ->
      Pandas.contains (LStr y_col) (df self) = true ->
      (forall exc, figure plt = Some exc ->
         plot x_col y_col kind plt self = Returns (ErrPlot exc))
      /\ (figure plt = None -> chart_kind kind = None ->
            plot x_col y_col kind plt self = Returns ErrUnsupportedChart)
      /\ (forall k, figure plt = None -> chart_kind kind = Some k ->
            chartable (Pandas.getitem (LStr x_col) (df self)) = true ->
            chartable (Pandas.getitem (LStr y_col) (df self)) = true ->
            let req :=
              mkPlot k
                (map number_of (Pandas.getitem (LStr x_col) (df self)))
                (map number_of (Pandas.getitem (LStr y_col) (df self)))
                (kind_title k ++ " plot of " ++ y_col ++ " vs " ++ x_col)
                x_col y_col in
            length (xs req) = Pandas.len (df self)
            /\ length (ys req) = Pandas.len (df self)
            /\ plot x_col y_col kind plt self
               = match draw plt req with
                 | Some exc => Returns (ErrPlot exc)
                 | None => Returns (Plotted req)
                 end)).
Proof.
  split.
  - intros [C|C]; unfold plot; rewrite C; simpl;
      [reflexivity | now rewrite orb_true_r].
  - intros Cx Cy. unfold plot. rewrite Cx, Cy. simpl.
    destruct (to_numeric_returns (Pandas.getitem (LStr x_col) (df self)))
      as [x Rx].
    destruct (to_numeric_returns (Pandas.getitem (LStr y_col) (df self)))
      as [y Ry].
    rewrite Rx, Ry.
    split; [|split].
    + intros exc F. now rewrite F.
    + intros F K. now rewrite F, K.
    + intros k F K Hx Hy. rewrite F, K. simpl.
      rewrite (values_chartable _ x Hx Rx), (values_chartable _ y Hy Ry).
      rewrite !length_map, !getitem_length by assumption.
      repeat split.
Qed.

Lemma plot_prepares_request_witness :
  plot "item" "qty" "bar" headless gaps_sheet
  = Returns (Plotted (mkPlot Bar
                        [nan; nan; nan]
                        [Finite 12; Finite (-3); Finite 0]
                        "Bar plot of qty vs item" "item" "qty")).
Proof.
  destruct (plot_prepares_request "item" "qty" "bar" headless gaps_sheet)
    as [_ P].
  destruct (P eq_refl eq_refl) as (_ & _ & Q).
  destruct (Q Bar eq_refl eq_refl eq_refl eq_refl) as (_ & _ & R).
  exact R.
Defined.

(** ** The menu loop *)

Lemma read_lines_split (n : nat) :
  forall lines ls rest,
    read_lines n lines = Some (ls, rest) ->
    lines = ls ++ rest /\ length ls = n.
Proof.
  induction n as [|n IH]; intros lines ls rest H; simpl in H.
  - injection H as <- <-. now split.
  - destruct lines as [|l lines]; [discriminate|].
    destruct (read_lines n lines) as [[ls' rest']|] eqn:E; [|discriminate].
    injection H as <- <-. destruct (IH _ _ _ E) as [-> <-]. now split.
Qed.

Lemma read_lines_enough (n : nat) :
  forall lines,
    (n <= length lines)%nat ->
    read_lines n lines = Some (firstn n lines, skipn n lines).
Proof.
  induction n as [|n IH]; intros lines H; [reflexivity|].
  destruct lines as [|l lines]; [simpl in H; lia|].
  simpl in *. rewrite IH by lia. reflexivity.
Qed.

Lemma read_lines_short (n : nat) :
  forall lines, (length lines < n)%nat -> read_lines n lines = None.
Proof.
  induction n as [|n IH]; intros lines H; [lia|].
  destruct lines as [|l lines]; [reflexivity|].
  simpl in *. rewrite IH by lia. reflexivity.
Qed.

Lemma call_next (op : Op) (w w' : World) (rest rest' : list string)
  (out : list Shown) :
  call op w rest = Next w' rest' out ->
  rest' = rest /\ w' = fst (run op w)
  /\ exists r, snd (run op w) = Returns r /\ out = [Menu; Said r].
Proof.
  unfold call. destruct (run op w) as [w1 [r|e]]; [|discriminate].
  intros H. injection H as <- <- <-. repeat split. now exists r.
Qed.

Lemma call_stop (op : Op) (w w' : World) (rest : list string)
  (out : list Shown) (how : Ending) :
  call op w rest = Stop w' out how ->
  w' = fst (run op w)
  /\ exists e, snd (run op w) = Propagates e /\ how = Crashed (Escaped e).
Proof.
  unfold call. destruct (run op w) as [w1 [r|e]]; [discriminate|].
  intros H. injection H as <- <- <-. split; [reflexivity|]. now exists e.
Qed.

Ltac split_innermost :=
  match goal with
  | |- context [match ?x with _ => _ end] =>
      lazymatch x with
      | context [match _ with _ => _ end] => fail
      | _ => destruct x eqn:?
      end
  end.

Ltac give_read :=
  match goal with
  | |- exists read, _ /\ ?x = read ++ ?r =>
      match x with
      | ?a :: r => exists [a]
      | ?a :: ?b :: r => exists [a; b]
      | ?a :: ?b :: ?c :: r => exists [a; b; c]
      | ?a :: ?b :: ?c :: ?d :: r => exists [a; b; c; d]
      | ?a :: ?l ++ r => exists (a :: l)
      | ?a :: ?b :: ?l ++ r => exists (a :: b :: l)
      | ?a :: ?b :: ?c :: ?l ++ r => exists (a :: b :: c :: l)
      end;
      split; [discriminate | reflexivity]
  end.

Ltac use_calls :=
  repeat match goal with
    | H : read_lines _ _ = Some _ |- _ =>
        apply read_lines_split in H; destruct H as [? ?]
    | H : String.eqb _ _ = true |- _ => apply String.eqb_eq in H
    | H : call _ _ _ = Next _ _ _ |- _ =>
        apply call_next in H; destruct H as (? & ? & ? & ? & ?)
    | H : call _ _ _ = Stop _ _ _ |- _ =>
        apply call_stop in H; destruct H as (? & ? & ? & ?)
    end;
  subst.

(** What one turn does to the input and to the world: a turn that goes on
    has read at least one line, a world changes only through a method
    call, and a turn ends the program by the choice "0" alone. *)
Lemma menu_step_cases (py : Python) (w : World) (lines : list string) :
  match menu_step py w lines with
  | Next w' rest out =>
      (exists read, read <> [] /\ lines = read ++ rest)
      /\ (w' = w \/ exists op, w' = fst (run op w))
  | Stop w' out how =>
      (w' = w \/ exists op, w' = fst (run op w))
      /\ (how = Exited ->
          exists line rest, lines = line :: rest /\ py_strip py line = "0")
  end.
Proof.
  unfold menu_step, input, inputs.
  repeat split_innermost; use_calls;
    (split;
     [ first [ give_read
             | left; reflexivity
             | right; eexists; reflexivity ]
     | first [ left; reflexivity
             | right; eexists; reflexivity
             | intros X; first [ discriminate X
                               | do 2 eexists; split;
                                 [reflexivity|assumption] ] ] ]).
Qed.

Lemma main_loop_ends (fuel : nat) (py : Python) :
  forall (w : World) (lines : list string),
    (length lines < fuel)%nat ->
    wf (df (sheet w)) ->
    exists w' out how,
      main_loop fuel py w lines = Some (w', out, how)
      /\ wf (df (sheet w'))
      /\ (how = Exited ->
          exists line, In line lines /\ py_strip py line = "0").
Proof.
  induction fuel as [|fuel IH]; intros w lines L W; [lia|].
  simpl. pose proof (menu_step_cases py w lines) as C.
  assert (K : forall w1, (w1 = w \/ exists op, w1 = fst (run op w)) ->
                         wf (df (sheet w1))).
  { intros w1 [->|[op ->]]; [assumption | now apply run_keeps_wf]. }
  destruct (menu_step py w lines) as [w1 rest out|w1 out how].
  - destruct C as [[read [NE ->]] Hw].
    destruct (IH w1 rest) as (w2 & out2 & how & E & W2 & X).
    + rewrite length_app in L. destruct read; [congruence|]. simpl in L. lia.
    + now apply K.
    + rewrite E. exists w2, (out ++ out2), how.
      split; [reflexivity|]. split; [assumption|].
      intros H. destruct (X H) as [line [Hin Hs]].
      exists line. split; [|assumption]. apply in_or_app. now right.
  - destruct C as [Hw X]. exists w1, out, how.
    split; [reflexivity|]. split; [now apply K|].
    intros H. destruct (X H) as (line & rest & -> & Hs).
    exists line. split; [now left | assumption].
Qed.

(** X14. [main] always comes to an end on a finite input, whatever is
    typed: nothing loops without reading, so the run is over after at
    most one turn per line and one more.  It ends by the choice "0" --
    which then is one of the lines typed -- or is cut short by the end
    of the input or by an exception; and the table it ends with is
    rectangular with distinct column names. *)
Theorem main_ends (py : Python) (fs : Pandas.FileSystem) (plt : Pyplot)
  (lines : list string) :
  exists w out how,
    main py fs plt lines = Some (w, out, how)
    /\ wf (df (sheet w))
    /\ (how = Exited ->
        exists line, In line lines /\ py_strip py line = "0")
    /\ ((forall line, In line lines -> py_strip py line <> "0") ->
        exists c, how = Crashed c).
Proof.
  destruct (main_loop_ends (S (length lines)) py (new_world fs plt) lines)
    as (w & out & how & E & W & X); [lia | exact wf_new_store |].
  exists w, out, how. split; [exact E|]. split; [exact W|].
  split; [exact X|].
  intros N. destruct how as [|c]; [|now exists c].
  destruct (X eq_refl) as [line [Hin Hs]]. now destruct (N line Hin).
Qed.

(** X15. Through the menu, an edit of a built table that is not empty
    always fits.  Choice 4 asks for one value per column and choice 5 for a name
    and one value per row, so [add_row] appends the row and [add_column]
    writes the column: no shape mismatch is ever reported.  If the input
    ends before all the values are typed, the run is cut short with the
    table untouched. *)
Theorem menu_edits_fit (py : Python) (w : World) (line : string)
  (rest : list string) :
  built (sheet w) ->
  Pandas.empty (df (sheet w)) = false ->
  (py_strip py line = "4" ->
     ((Pandas.ncols (df (sheet w)) <= length rest)%nat ->
        menu_step py w (line :: rest)
        = Next (mkWorld
                  (mkSheet
                     (mkDF (columns (df (sheet w)))
                           (data (df (sheet w))
                            ++ [map CStr
                                    (firstn (Pandas.ncols (df (sheet w)))
                                            rest)])))
                  (disk w) (pyplot w))
               (skipn (Pandas.ncols (df (sheet w))) rest)
               [Menu; Said RowAdded])
     /\ ((length rest < Pandas.ncols (df (sheet w)))%nat ->
           menu_step py w (line :: rest)
           = Stop w [Menu] (Crashed EndOfInput)))
  /\ (py_strip py line = "5" ->
      forall name rest',
        rest = name :: rest' ->
        ((Pandas.len (df (sheet w)) <= length rest')%nat ->
           menu_step py w (line :: rest)
           = Next (mkWorld
                     (mkSheet
                        (Pandas.set_column (LStr name)
                           (map CStr (firstn (Pandas.len (df (sheet w)))
                                             rest'))
                           (df (sheet w))))
                     (disk w) (pyplot w))
                  (skipn (Pandas.len (df (sheet w))) rest')
                  [Menu; Said (ColumnAdded name)])
        /\ ((length rest' < Pandas.len (df (sheet w)))%nat ->
              menu_step py w (line :: rest)
              = Stop w [Menu] (Crashed EndOfInput))).
Proof.
  intros _ E. split.
  - intros C. unfold menu_step, input, inputs. rewrite C. simpl. rewrite E.
    split; intros L.
    + rewrite read_lines_enough by assumption.
      unfold call. simpl.
      rewrite (add_row_append _ (sheet w) E); [reflexivity|].
      rewrite length_firstn. lia.
    + now rewrite read_lines_short.
  - intros C name rest' ->.
    unfold menu_step, input, inputs. rewrite C. simpl. rewrite E.
    split; intros L.
    + rewrite read_lines_enough by assumption.
      unfold call. simpl.
      rewrite (add_column_write _ _ (sheet w) E); [reflexivity|].
      rewrite length_firstn. lia.
    + now rewrite read_lines_short.
Qed.

Lemma menu_edits_fit_witness :
  menu_step typed_plainly (mkWorld one_column any_disk headless)
            ["4"; "3"; "6"]
  = Next (mkWorld (mkSheet (mkDF [LStr "a"]
                                 [[CStr "1"]; [CStr "2"]; [CStr "3"]]))
                  any_disk headless)
         ["6"] [Menu; Said RowAdded].
Proof.
  destruct (menu_edits_fit typed_plainly
              (mkWorld one_column any_disk headless) "4" ["3"; "6"]
              built_one_column eq_refl)
    as [A _].
  destruct (A eq_refl) as [A' _].
  apply A'. unfold Pandas.ncols. simpl. lia.
Defined.

Lemma add_column_raises (name : string) (values : list string)
  (self : Spreadsheet) :
  columns (df self) = [] ->
  data (df self) <> [] ->
  length values <> Pandas.len (df self) ->
  add_column name values self = (self, Propagates ValueError).
Proof.
  intros C D L. unfold add_column, Pandas.setitem.
  assert (E : Pandas.empty (df self) = true).
  { unfold Pandas.empty, Pandas.ncols. now rewrite C. }
  rewrite E. simpl.
  assert (V : Pandas.ensure_valid_index (length values) (df self) = df self).
  { unfold Pandas.ensure_valid_index, Pandas.len.
    destruct (data (df self)); [congruence|reflexivity]. }
  rewrite V. apply Nat.eqb_neq in L. rewrite L. now destruct self.
Qed.




Lemma read_lines_app (ls rest : list string) :
  read_lines (length ls) (ls ++ rest) = Some (ls, rest).
Proof.
  induction ls as [|l ls IH]; [reflexivity|]. simpl. now rewrite IH.
Qed.

(** X17. The menu leads to the one exception that leaves a method.  On a
    new store, choice 4 with zero columns adds a row without columns;
    choice 5 then asks how many rows the column has, and any answer but
    one row makes [add_column] raise: the program ends there with a
    [ValueError], whatever name and values were typed and whatever
    follows in the input. *)
Theorem menu_reaches_the_crash (py : Python) (fs : Pandas.FileSystem)
  (plt : Pyplot) (zero name cnt : string) (count : Z)
  (values rest : list string) :
  py_strip py "4" = "4" ->
  py_strip py "5" = "5" ->
  py_int py zero = Some 0%Z ->
  py_int py cnt = Some count ->
  length values = Z.to_nat count ->
  Z.to_nat count <> 1%nat ->
  main py fs plt ("4" :: zero :: "5" :: name :: cnt :: values ++ rest)
  = Some (mkWorld columnless fs plt,
          [Menu; Said RowAdded; Menu],
          Crashed (Escaped ValueError)).
Proof.
  intros S4 S5 I0 IC LV N1.
  assert (T1 : menu_step py (new_world fs plt)
                 ("4" :: zero :: "5" :: name :: cnt :: values ++ rest)
               = Next (mkWorld columnless fs plt)
                      ("5" :: name :: cnt :: values ++ rest)
                      [Menu; Said RowAdded]).
  { unfold menu_step, input, inputs. rewrite S4. simpl. now rewrite I0. }
  assert (T2 : menu_step py (mkWorld columnless fs plt)
                 ("5" :: name :: cnt :: values ++ rest)
               = Stop (mkWorld columnless fs plt) [Menu]
                      (Crashed (Escaped ValueError))).
  { unfold menu_step, input, inputs. rewrite S5. simpl. rewrite IC.
    rewrite <- LV, read_lines_app. unfold call. simpl.
    rewrite add_column_raises; simpl; try reflexivity; try discriminate.
    unfold Pandas.len. simpl. lia. }
  unfold main. simpl length.
  cbn [main_loop]. rewrite T1. cbn [main_loop]. rewrite T2. reflexivity.
Qed.

Lemma menu_reaches_the_crash_witness :
  main typed_plainly any_disk headless
       ["4"; "0"; "5"; "total"; "2"; "x"; "y"; "3"; "0"]
  = Some (mkWorld columnless any_disk headless,
          [Menu; Said RowAdded; Menu],
          Crashed (Escaped ValueError)).
Proof.
  apply (menu_reaches_the_crash typed_plainly any_disk headless
           "0" "total" "2" 2 ["x"; "y"] ["3"; "0"]);
    try reflexivity.
  simpl. lia.
Defined.

(** ** Missing cells survive a save and a load *)

(** A table of plain words is a safe table. *)
Lemma sparse_table_safe (d : DataFrame) :
  sparse_table d = true -> safe_table d = true.
Proof.
  unfold sparse_table, safe_table. intros P.
  apply andb_prop in P. destruct P as [P COLS].
  apply andb_prop in P. destruct P as [NE WL].
  rewrite NE. simpl. apply andb_true_intro. split.
  - rewrite forallb_forall in *. intros l Hl. specialize (WL l Hl).
    destruct l as [i|s]; [discriminate|]. now apply plain_word_safe_text.
  - rewrite forallb_forall in *. intros j Hj. specialize (COLS j Hj).
    apply orb_prop in COLS. destruct COLS as [I|T]; [now rewrite I|].
    apply orb_true_intro. right.
    rewrite forallb_forall in *. intros c Hc. specialize (T c Hc).
    destruct c as [s|z|]; simpl in *;
      [now apply plain_word_safe_text | discriminate | reflexivity].
Qed.

(** X18. Missing cells are kept by a save and a load, where empty text is
    not: a rectangular table with at least one column, distinct
    plain-word column names, and columns that each hold either int64
    integers only, or plain words and missing cells, is loaded back
    exactly as it was saved. *)
Theorem save_then_load_sparse_table (path : string)
  (fs : Pandas.FileSystem) (self : Spreadsheet) :
  wf (df self) ->
  sparse_table (df self) = true ->
  Pandas.writable fs path = true ->
  save_then_load path fs self
  = (self, Returns (Loaded (Pandas.len (df self)) (Pandas.ncols (df self)))).
Proof.
  intros W P Wr. rewrite save_then_load_decodes by assumption.
  rewrite (decode_encode (df self) W (sparse_table_safe _ P)).
  now destruct self.
Qed.

Lemma save_then_load_sparse_table_witness :
  save_then_load "stock.csv" any_disk gaps_sheet
  = (gaps_sheet, Returns (Loaded 3 3)).
Proof.
  refine (save_then_load_sparse_table "stock.csv" any_disk gaps_sheet _ _ _).
  - split; simpl; [|repeat constructor].
    repeat constructor; simpl; intuition discriminate.
  - vm_compute. reflexivity.
  - reflexivity.
Defined.
